(** * simple-web3-client: the Web3Service class of src/index.ts

    A shallow embedding of [Web3Service] (src/index.ts), of [findInABI]
    (src/ContractMethods.ts) and of the types of src/types.ts, together with
    the parts of the JavaScript runtime and of the ethers library that the
    class calls: string slicing, [parseInt], regular expressions,
    [ethers.utils.toUtf8String].

    - Strings that carry hex payloads, hashes and network names are
      [string]s, one character per code unit below 256; a decoded revert
      reason, which may hold any Unicode text, is the list of its UTF-16
      code units.
    - Numbers are integers or NaN.
    - The web3 instance and the ethers providers are records of answers,
      each a function of the number of requests made so far; every request
      is logged with its answer.
    - An [async] method is a state transformer over the pending
      transactions and the log; a polling loop takes fuel and is pending
      when the fuel runs out. *)

From Stdlib Require Import ZArith List String Ascii Bool Lia.
Import ListNotations.

Local Open Scope string_scope.
Local Open Scope Z_scope.

(** ** Exceptions and results *)

(** What a canary or replay request answers when the provider rejects it:
    [err.responseText] after [JSON.parse]. *)
Inductive responseBody :=
| NotJSON                                   (* responseText absent or not JSON *)
| NoErrorMember                             (* parses, has no [error] member *)
| RpcError (code : option Z) (data : option string).

Inductive exn :=
| Error (message : string)                  (* throw new Error(message) *)
| Thrown (value : string)                   (* throw "..." : a bare string *)
| Rejected (responseText : responseBody)    (* a rejection of the provider *)
| SyntaxError                               (* JSON.parse on a non-JSON text *)
| TypeError                                 (* member access on undefined *)
| ArgumentError (reason : string).          (* ethers' logger.throwArgumentError *)

Inductive result (A : Type) :=
| Ok (a : A)
| Throw (e : exn).
Arguments Ok {A} a.
Arguments Throw {A} e.

Definition rbind {A B} (r : result A) (k : A -> result B) : result B :=
  match r with
  | Ok a => k a
  | Throw e => Throw e
  end.

Declare Scope result_scope.
Delimit Scope result_scope with result.
Notation "'let?' x ':=' r 'in' k" := (rbind r (fun x => k))
  (at level 10, x name, r at level 200, k at level 200) : result_scope.
Notation "'let?' ' p ':=' r 'in' k" := (rbind r (fun p => k))
  (at level 10, p strict pattern, r at level 200, k at level 200) : result_scope.

(** ** The JavaScript runtime *)

Module JS.

(** A JavaScript number, as far as the class computes with them: an
    integer or NaN.  Integers are exact; the class only compares them and
    clamps them to string lengths. *)
Inductive number :=
| Int (z : Z)
| NaN.

Definition mul (a b : number) : number :=
  match a, b with
  | Int x, Int y => Int (x * y)
  | _, _ => NaN
  end.

Definition add (a b : number) : number :=
  match a, b with
  | Int x, Int y => Int (x + y)
  | _, _ => NaN
  end.

Definition sub (a b : number) : number :=
  match a, b with
  | Int x, Int y => Int (x - y)
  | _, _ => NaN
  end.

(** [a >= b] and [a < b]: both false as soon as one side is NaN. *)
Definition ge (a b : number) : bool :=
  match a, b with
  | Int x, Int y => x >=? y
  | _, _ => false
  end.

Definition lt (a b : number) : bool :=
  match a, b with
  | Int x, Int y => x <? y
  | _, _ => false
  end.

(** ToIntegerOrInfinity: NaN becomes 0. *)
Definition ToInteger (n : number) : Z :=
  match n with
  | Int z => z
  | NaN => 0
  end.

Definition len (s : string) : Z := Z.of_nat (String.length s).

Fixpoint drop (n : nat) (s : string) : string :=
  match n, s with
  | O, _ => s
  | S n', String _ s' => drop n' s'
  | S _, EmptyString => EmptyString
  end.

Fixpoint take (n : nat) (s : string) : string :=
  match n, s with
  | S n', String a s' => String a (take n' s')
  | _, _ => EmptyString
  end.

(** A relative index of [slice]: negative counts from the end, and the
    result is clamped to [0, len]. *)
Definition relative (size i : Z) : Z :=
  if i <? 0 then Z.max (size + i) 0 else Z.min i size.

(** [s.slice(start, end)]. *)
Definition slice (s : string) (start end_ : number) : string :=
  let from := relative (len s) (ToInteger start) in
  let to := relative (len s) (ToInteger end_) in
  take (Z.to_nat (Z.max (to - from) 0)) (drop (Z.to_nat from) s).

(** [s.slice(start)]: the end defaults to the length. *)
Definition slice_from (s : string) (start : number) : string :=
  slice s start (Int (len s)).

(** [s.substr(start)]: the length defaults to the rest of the string. *)
Definition substr (s : string) (start : number) : string :=
  let from := relative (len s) (ToInteger start) in
  drop (Z.to_nat from) s.

(** [s.substring(0, n)] for a literal [n >= 0]. *)
Definition substring0 (s : string) (n : nat) : string := take n s.

(** *** Characters *)

Definition code (c : ascii) : Z := Z.of_nat (nat_of_ascii c).

Definition between (lo hi c : ascii) : bool :=
  (code lo <=? code c) && (code c <=? code hi).

(** The value of a digit in radix 16. *)
Definition hexval (c : ascii) : option Z :=
  if between "0" "9" c then Some (code c - 48)
  else if between "a" "f" c then Some (code c - 87)
  else if between "A" "F" c then Some (code c - 55)
  else None.

(** WhiteSpace and LineTerminator code units below 256. *)
Definition is_space (c : ascii) : bool :=
  existsb (Z.eqb (code c)) [9; 10; 11; 12; 13; 32; 160].

Fixpoint trim_start (s : string) : string :=
  match s with
  | String c s' => if is_space c then trim_start s' else s
  | EmptyString => s
  end.

(** The longest prefix of radix-16 digits, accumulated; [None] when the
    prefix is empty. *)
Fixpoint digits16 (acc : option Z) (s : string) : option Z :=
  match s with
  | String c s' =>
      match hexval c with
      | Some d => digits16 (Some (16 * match acc with Some a => a | None => 0 end + d)) s'
      | None => acc
      end
  | EmptyString => acc
  end.

(** [parseInt(s, 16)]: leading white space, a sign, an optional "0x" or
    "0X", then the longest run of hex digits; NaN when there is none. *)
Definition parseInt16 (s : string) : number :=
  let s := trim_start s in
  let '(sign, s) :=
    match s with
    | String "-" s' => (-1, s')
    | String "+" s' => (1, s')
    | _ => (1, s)
    end in
  let s :=
    match s with
    | String "0" (String "x" s') => s'
    | String "0" (String "X" s') => s'
    | _ => s
    end in
  match digits16 None s with
  | Some v => Int (sign * v)
  | None => NaN
  end.

(** [toLowerCase] on the code units below 256. *)
Definition lower (c : ascii) : ascii :=
  let n := code c in
  if ((65 <=? n) && (n <=? 90)) || ((192 <=? n) && (n <=? 222) && negb (n =? 215))
  then ascii_of_nat (Z.to_nat (n + 32))
  else c.

Fixpoint toLowerCase (s : string) : string :=
  match s with
  | String c s' => String (lower c) (toLowerCase s')
  | EmptyString => EmptyString
  end.

(** *** Regular expressions

    The fragment the class and ethers use: a sequence of the anchors [^]
    and [$] and of character classes, each taken once, exactly [n] times
    ([{n}]), one or more times ([+]) or any number of times ([*]), the
    last two greedy. *)

Inductive quantifier :=
| Once
| Exactly (n : nat)
| Plus
| Star.

Definition charclass := list (ascii * ascii).

Inductive item :=
| Bol                                           (* ^ *)
| Eol                                           (* $ *)
| Atom (cls : charclass) (q : quantifier).

Definition regex := list item.

Definition lit (c : ascii) : item := Atom [(c, c)] Once.

Definition in_class (cls : charclass) (c : ascii) : bool :=
  existsb (fun r => between (fst r) (snd r) c) cls.

Section Quantifiers.
Variable cls : charclass.
(** The rest of the pattern; its first argument tells whether the
    position is still the start of the input. *)
Variable k : bool -> string -> option string.

(** Exactly [n] characters of the class, then the rest of the pattern. *)
Fixpoint eat_exactly (bol : bool) (n : nat) (s : string) : option string :=
  match n with
  | O => k bol s
  | S n' =>
      match s with
      | String c s' => if in_class cls c then eat_exactly false n' s' else None
      | EmptyString => None
      end
  end.

(** As many characters of the class as possible, giving back one at a
    time while the rest of the pattern fails. *)
Fixpoint eat_star (bol : bool) (s : string) : option string :=
  match s with
  | String c s' =>
      if in_class cls c then
        match eat_star false s' with
        | Some r => Some r
        | None => k bol s
        end
      else k bol s
  | EmptyString => k bol s
  end.

Definition eat_plus (s : string) : option string :=
  match s with
  | String c s' => if in_class cls c then eat_star false s' else None
  | EmptyString => None
  end.
End Quantifiers.

(** [match_here r bol s]: the pattern matches at the head of [s], which is
    the start of the input when [bol]; the result is what follows the
    match. *)
Fixpoint match_here (r : regex) (bol : bool) (s : string) : option string :=
  match r with
  | [] => Some s
  | Bol :: r' => if bol then match_here r' bol s else None
  | Eol :: r' =>
      match s with
      | EmptyString => match_here r' bol s
      | String _ _ => None
      end
  | Atom cls q :: r' =>
      let k := fun b s' => match_here r' b s' in
      match q with
      | Once => eat_exactly cls k bol 1 s
      | Exactly n => eat_exactly cls k bol n s
      | Plus => eat_plus cls k s
      | Star => eat_star cls k bol s
      end
  end.

(** The leftmost match: what precedes it and what follows it. *)
Fixpoint exec_at (r : regex) (bol : bool) (s : string) : option (string * string) :=
  match match_here r bol s with
  | Some rest => Some (EmptyString, rest)
  | None =>
      match s with
      | String c s' =>
          match exec_at r false s' with
          | Some (pre, rest) => Some (String c pre, rest)
          | None => None
          end
      | EmptyString => None
      end
  end.

(** [r.test(s)]. *)
Definition test (r : regex) (s : string) : bool :=
  match exec_at r true s with
  | Some _ => true
  | None => false
  end.

(** [s.replace(r, by)], for a pattern without the [g] flag: the leftmost
    match is replaced. *)
Definition replace (s : string) (r : regex) (by_ : string) : string :=
  match exec_at r true s with
  | Some (pre, rest) => pre ++ by_ ++ rest
  | None => s
  end.

End JS.


(** ** ethers.utils.toUtf8String

    The library function the decoder ends with (ethers v5, packages bytes
    and strings): [arrayify] turns a hex string into bytes, and
    [getUtf8CodePoints] decodes them with the default error handler, which
    throws at the first malformed sequence. *)

Module Ethers.

(** /^0x[0-9A-Fa-f]*$/ *)
Definition hexStringRegex : JS.regex :=
  [JS.Bol; JS.lit "0"; JS.lit "x";
   JS.Atom [("0", "9"); ("A", "F"); ("a", "f")]%char JS.Star; JS.Eol].

Definition isHexString (value : string) : bool := JS.test hexStringRegex value.

(** [parseInt(hex.substring(i, i + 2), 16)] for i = 0, 2, 4, ...; the
    Uint8Array stores NaN as 0. *)
Fixpoint hexPairs (hex : string) : list Z :=
  match hex with
  | String a (String b rest) =>
      JS.ToInteger (JS.parseInt16 (String a (String b EmptyString))) :: hexPairs rest
  | _ => []
  end.

Definition arrayify (value : string) : result (list Z) :=
  if isHexString value then
    let hex := JS.drop 2 value in
    if JS.len hex mod 2 =? 0 then Ok (hexPairs hex)
    else Throw (ArgumentError "hex data is odd-length")
  else Throw (ArgumentError "invalid arrayify value").

(** The [extraLength] continuation bytes of a multi-byte character, folded
    into [res]; [None] at a byte that is no continuation byte. *)
Fixpoint continuation (extraLength : nat) (res : Z) (bytes : list Z) : option (Z * list Z) :=
  match extraLength with
  | O => Some (res, bytes)
  | S n =>
      match bytes with
      | nextChar :: bytes' =>
          if Z.land nextChar 0xc0 =? 0x80
          then continuation n (Z.lor (Z.shiftl res 6) (Z.land nextChar 0x3f)) bytes'
          else None
      | [] => None
      end
  end.

(** The lead byte's class: the number of continuation bytes and the mask of
    the values that a shorter sequence already covers. *)
Definition leadByte (c : Z) : result (nat * Z) :=
  if Z.land c 0xe0 =? 0xc0 then Ok (1%nat, 0x7f)
  else if Z.land c 0xf0 =? 0xe0 then Ok (2%nat, 0x7ff)
  else if Z.land c 0xf8 =? 0xf0 then Ok (3%nat, 0xffff)
  else if Z.land c 0xc0 =? 0x80 then Throw (ArgumentError "unexpected continuation byte")
  else Throw (ArgumentError "bad codepoint prefix").

(** The decoding loop; one round per character, so the number of bytes is
    fuel enough. *)
Fixpoint codePoints (fuel : nat) (bytes : list Z) : result (list Z) :=
  match fuel, bytes with
  | S fuel', c :: rest =>
      if Z.shiftr c 7 =? 0 then
        let? cps := codePoints fuel' rest in Ok (c :: cps)
      else
        let? '(extraLength, overlongMask) := leadByte c in
        if (List.length rest <? extraLength)%nat then Throw (ArgumentError "string overrun")
        else
          let res := Z.land c (Z.shiftl 1 (8 - Z.of_nat extraLength - 1) - 1) in
          match continuation extraLength res rest with
          | None => Throw (ArgumentError "missing continuation byte")
          | Some (res, rest') =>
              if res >? 0x10ffff then Throw (ArgumentError "out of UTF-8 range")
              else if (res >=? 0xd800) && (res <=? 0xdfff) then Throw (ArgumentError "UTF-16 surrogate")
              else if res <=? overlongMask then Throw (ArgumentError "overlong representation")
              else let? cps := codePoints fuel' rest' in Ok (res :: cps)
          end
  | _, _ => Ok []
  end%result.

Definition getUtf8CodePoints (bytes : list Z) : result (list Z) :=
  codePoints (List.length bytes) bytes.

(** [String.fromCharCode] per code point, with a surrogate pair above the
    basic plane. *)
Definition fromCodePoint (codePoint : Z) : list Z :=
  if codePoint <=? 0xffff then [codePoint]
  else
    let codePoint := codePoint - 0x10000 in
    [Z.land (Z.shiftr codePoint 10) 0x3ff + 0xd800; Z.land codePoint 0x3ff + 0xdc00].

Definition toUtf8String (bytes : string) : result (list Z) :=
  (let? bytes := arrayify bytes in
   let? cps := getUtf8CodePoints bytes in
   Ok (flat_map fromCodePoint cps))%result.

End Ethers.

(** The UTF-16 code units of a text written in ASCII. *)
Definition utf16 (s : string) : list Z := map JS.code (list_ascii_of_string s).

(** ** src/types.ts and the web3 types it builds on *)

(** The argument and return values of a contract method ([any]). *)
Inductive any :=
| Str (s : string)
| Num (z : Z)
| Boolean (b : bool).

(** AbiInput and AbiOutput of web3-utils. *)
Record AbiParam := { param_name : string; param_type : string }.

Module AbiItem.
Record t := {
  name : option string;
  type : string;
  inputs : option (list AbiParam);
  outputs : option (list AbiParam)
}.
End AbiItem.

Module ContractMethod.
Record t := {
  name : string;
  signature : string;
  address : string;
  abi : list AbiItem.t;
  method : option AbiItem.t
}.
End ContractMethod.

(** The receipt of web3-core and its extension with [revertReason]. *)
Module Receipt.
Record base := {
  status : bool;
  transactionHash : string;
  blockNumber : Z
}.
Record t := {
  receipt : base;
  revertReason : option (list Z)
}.
End Receipt.

(** A block tag: [string | number]. *)
Inductive blockTag :=
| Tag (s : string)
| Height (n : JS.number).

(** The transaction object that [provider.getTransaction] answers. *)
Record Transaction := {
  tx_hash : string;
  tx_from : string;
  tx_to : string;
  tx_data : string
}.

(** The request of [transaction]: [{ from, to, data }], then with [gas]. *)
Record TransactionConfig := {
  from : string;
  to : string;
  data : string;
  gas : option Z
}.

(** What the stream of [eth.sendTransaction] emits. *)
Inductive streamEvent :=
| transactionHash (hash : string)
| error (e : exn).

(** ** The environment

    Every answer of the outside world is a function of the number of
    requests made before it and of the request: two queries with the same
    arguments may be answered differently, as a receipt poll is. *)

(** [web3Instance]: the ABI codec and the [eth] requests. *)
Record Web3 := {
  encodeFunctionSignature : string -> result string;
  encodeFunctionCall : AbiItem.t -> list any -> result string;
  decodeParameters : list AbiParam -> string -> result (list (string * any));
  eth_call : nat -> string -> string -> result string;
  eth_estimateGas : nat -> TransactionConfig -> result Z;
  eth_sendTransaction : nat -> TransactionConfig -> list streamEvent;
  eth_getTransactionReceipt : nat -> string -> result (option Receipt.base)
}.

(** An ethers provider. *)
Record Provider := {
  getTransaction : nat -> string -> result (option Transaction);
  provider_call : nat -> option Transaction -> blockTag -> result string;
  getBlockNumber : nat -> result Z;
  getBalance : nat -> string -> JS.number -> result Z
}.

(** The requests made so far, each with its answer. *)
Inductive event :=
| EthCall (to data : string) (r : result string)
| EstimateGas (tx : TransactionConfig) (r : result Z)
| SendTransaction (tx : TransactionConfig) (emits : list streamEvent)
| GetTransactionReceipt (txId : string) (r : result (option Receipt.base))
| GetTransaction (hash : string) (r : result (option Transaction))
| Call (tx : option Transaction) (block : blockTag) (r : result string)
| GetBlockNumber (r : result Z)
| GetBalance (addr : string) (block : JS.number) (r : result Z).

(** A replay of the transaction is a [provider.call]. *)
Definition is_replay (e : event) : bool :=
  match e with
  | Call _ _ _ => true
  | _ => false
  end.

(** The state of the service object and the history of its requests. *)
Record State := {
  pendingTransactions : list string;
  log : list event
}.

Definition tick (st : State) : nat := List.length (log st).

Definition record (e : event) (st : State) : State :=
  {| pendingTransactions := pendingTransactions st; log := log st ++ [e] |}.

(** The requests made between two states. *)
Definition events_since (st st' : State) : list event :=
  skipn (tick st) (log st').

(** ** Asynchronous methods

    An [async] method is a state transformer whose outcome is the
    settlement of its promise: fulfilled, rejected, or still pending when
    the fuel of a polling loop is used up. *)

Inductive outcome (A : Type) :=
| Return (a : A)
| Raise (e : exn)
| Pending.
Arguments Return {A} a.
Arguments Raise {A} e.
Arguments Pending {A}.

Definition M (A : Type) := State -> outcome A * State.

Definition ret {A} (a : A) : M A := fun st => (Return a, st).

Definition raise {A} (e : exn) : M A := fun st => (Raise e, st).

Definition bind {A B} (m : M A) (k : A -> M B) : M B :=
  fun st =>
    match m st with
    | (Return a, st') => k a st'
    | (Raise e, st') => (Raise e, st')
    | (Pending, st') => (Pending, st')
    end.

Definition lift {A} (r : result A) : M A :=
  match r with
  | Ok a => ret a
  | Throw e => raise e
  end.

(** [try { m } catch (err) { h err }]. *)
Definition try_catch {A} (m : M A) (h : exn -> M A) : M A :=
  fun st =>
    match m st with
    | (Raise e, st') => h e st'
    | r => r
    end.

(** A call whose promise is dropped: the requests are made, the outcome is
    neither awaited nor caught. *)
Definition detached {A} (m : M A) : M unit :=
  fun st => (Return tt, snd (m st)).

(** A request: answered from the environment and recorded. *)
Definition request {A} (answer : nat -> result A) (ev : result A -> event) : M A :=
  fun st => let r := answer (tick st) in lift r (record (ev r) st).

Declare Scope async_scope.
Delimit Scope async_scope with async.
Notation "x <- m ;; k" := (bind m (fun x => k))
  (at level 61, m at next level, right associativity) : async_scope.
Notation "m ;; k" := (bind m (fun _ => k))
  (at level 61, right associativity) : async_scope.

(** ** src/ContractMethods.ts *)

(** [abi.find(current => current.name === name)], or [throw "No ABI found"]. *)
Definition findInABI (name : string) (abi : list AbiItem.t) : result AbiItem.t :=
  let ABI :=
    find (fun current =>
            match AbiItem.name current with
            | Some n => (n =? name)%string
            | None => false
            end) abi in
  match ABI with
  | None => Throw (Thrown "No ABI found")
  | Some ABI => Ok ABI
  end.

(** ** src/index.ts: class Web3Service *)

Module Web3Service.

Section Service.

(** [this.web3Instance], [ethers.getDefaultProvider] and the conversion of
    a string to a number that [Number(blockNumber)] applies. *)
Variable web3Instance : Web3.
Variable getDefaultProvider : string -> Provider.
Variable StringToNumber : string -> JS.number.

Local Open Scope async_scope.

(** *** call *)

(** index.ts, lines 122-130. *)
Definition encodeMethod (method : ContractMethod.t) (args : list any) : result string :=
  if (List.length args =? 0)%nat then
    encodeFunctionSignature web3Instance (ContractMethod.signature method)
  else
    (let? abiItem := findInABI (ContractMethod.name method) (ContractMethod.abi method) in
     encodeFunctionCall web3Instance abiItem args)%result.

(** index.ts, lines 104-120. *)
Definition decodeOutput (method : ContractMethod.t) (output : string)
  : result (list (string * any)) :=
  (let? AbiItem := findInABI (ContractMethod.name method) (ContractMethod.abi method) in
   match AbiItem.outputs AbiItem with
   | None => Throw (Error "No outputs in ABI")
   | Some outputs =>
       let AbiInputs :=
         map (fun o => {| param_name := param_name o; param_type := param_type o |}) outputs in
       decodeParameters web3Instance AbiInputs output
   end)%result.

(** index.ts, lines 27-44.  [null] is [None]. *)
Definition call (method : ContractMethod.t) (args : list any)
  : M (option (list (string * any))) :=
  data <- lift (encodeMethod method args) ;;
  result <- request (fun t => eth_call web3Instance t (ContractMethod.address method) data)
                    (EthCall (ContractMethod.address method) data) ;;
  if (result =? "0x")%string then ret None
  else
    decoded <- lift (decodeOutput method result) ;;
    ret (Some decoded).

(** *** The revert reason (after eth-revert-reason) *)

(** index.ts, lines 165-170.  [blockNumber || "latest"]: the empty string
    is falsy too. *)
Definition normalizeInput (network : string) (blockNumber : option string)
  : string * string :=
  (JS.toLowerCase network,
   match blockNumber with
   | Some EmptyString | None => "latest"
   | Some b => b
   end).

(** /^0x([A-Fa-f0-9]{64})$/ *)
Definition txHashRegex : JS.regex :=
  [JS.Bol; JS.lit "0"; JS.lit "x";
   JS.Atom [("A", "F"); ("a", "f"); ("0", "9")]%char (JS.Exactly 64); JS.Eol].

Definition includes (l : list string) (x : string) : bool :=
  existsb (String.eqb x) l.

(** index.ts, lines 172-185. *)
Definition validateInputPreProvider (txHash network : string) : result unit :=
  if negb (JS.test txHashRegex txHash)
     || negb (JS.substring0 txHash 2 =? "0x")%string
  then Throw (Error "Invalid transaction hash")
  else
    let networks := ["mainnet"; "kovan"; "goerli"; "ropsten"; "rinkeby"] in
    if negb (includes networks network) then Throw (Error "Not a valid network")
    else Ok tt.

Definition getProvider (network : string) : Provider := getDefaultProvider network.

(** [JSON.parse(err.responseText)]: only a rejection of the provider
    carries a response text. *)
Definition responseText (err : exn) : responseBody :=
  match err with
  | Rejected body => body
  | _ => NotJSON
  end.

(** [JSON.parse(err.responseText).error], then a member of it. *)
Definition parsedError {A} (err : exn) (member : option Z -> option string -> result A)
  : result A :=
  match responseText err with
  | NotJSON => Throw SyntaxError
  | NoErrorMember => Throw TypeError
  | RpcError code data => member code data
  end.

(** index.ts, lines 277-295. *)
Definition getCode (tx : option Transaction) (network : string)
  (blockNumber : blockTag) (provider : Provider) : M string :=
  let replay :=
    request (fun t => provider_call provider t tx blockNumber) (Call tx blockNumber) in
  if (network =? "kovan")%string then
    try_catch replay
      (fun err =>
         lift (parsedError err
                 (fun _ data =>
                    match data with
                    | Some data => Ok (JS.substr data (JS.Int 9))
                    | None => Throw TypeError
                    end)))
  else replay.

(** [Number(blockNumber)]. *)
Definition Number (blockNumber : blockTag) : JS.number :=
  match blockNumber with
  | Tag s => StringToNumber s
  | Height n => n
  end.

Definition AddressZero : string := "0x0000000000000000000000000000000000000000".

Definition infuraErrCode : Z := -32002.

(** [blockNumber !== "latest"]. *)
Definition is_latest (blockNumber : blockTag) : bool :=
  match blockNumber with
  | Tag s => (s =? "latest")%string
  | Height _ => false
  end.

(** index.ts, lines 194-241.  The call of [getCode] on kovan is not awaited:
    its requests are made and its outcome is dropped. *)
Definition validateInputPostProvider (txHash network : string)
  (blockNumber : blockTag) (provider : Provider) : M unit :=
  (if (network =? "kovan")%string then
     try_catch
       (tx <- request (fun t => getTransaction provider t txHash) (GetTransaction txHash) ;;
        detached (getCode tx network blockNumber provider))
       (fun _ =>
          raise (Error "Please use a provider that exposes the Parity trace methods to decode the revert reason."))
   else ret tt) ;;
  if negb (is_latest blockNumber) then
    currentBlockNumber <- request (getBlockNumber provider) GetBlockNumber ;;
    let blockNumber := Number blockNumber in
    if JS.ge blockNumber (JS.Int currentBlockNumber) then
      raise (Error "You cannot use a blocknumber that has not yet happened.")
    else if JS.lt blockNumber (JS.sub (JS.Int currentBlockNumber) (JS.Int 128)) then
      try_catch
        (request (fun t => getBalance provider t AddressZero blockNumber)
                 (GetBalance AddressZero blockNumber) ;;
         ret tt)
        (fun err =>
           errCode <- lift (parsedError err (fun code _ => Ok code)) ;;
           match errCode with
           | Some errCode =>
               if errCode =? infuraErrCode then
                 raise (Error "You cannot use a blocknumber that is older than 128 blocks. Please use a provider that uses a full archival node.")
               else ret tt
           | None => ret tt
           end)
    else ret tt
  else ret tt.

Definition fnSelectorByteLength : Z := 4.
Definition dataOffsetByteLength : Z := 32.
Definition strLengthByteLength : Z := 32.
Definition strLengthStartPos : Z :=
  2 + (fnSelectorByteLength + dataOffsetByteLength) * 2.
Definition strDataStartPos : Z :=
  2 + (fnSelectorByteLength + dataOffsetByteLength + strLengthByteLength) * 2.

(** /0+$/ *)
Definition trailingZeros : JS.regex := [JS.Atom [("0", "0")]%char JS.Plus; JS.Eol].

(** [codeString === "0x"] for a variable that may still be undefined. *)
Definition is0x (codeString : option string) : bool :=
  match codeString with
  | Some s => (s =? "0x")%string
  | None => false
  end.

(** index.ts, lines 243-267, the first half of [decodeMessage]: the header
    is stripped.  [inl] is the early [return ""] of the kovan branch, [inr]
    the value of [codeString] after the branches. *)
Definition strippedHeader (code network : string) : list Z + string :=
  let codeString : option string := None in
  if (network =? "kovan")%string then
    let strLengthHex :=
      JS.slice (JS.slice_from code (JS.Int strLengthStartPos))
               (JS.Int 0) (JS.Int (strLengthByteLength * 2)) in
    let strLengthInt := JS.parseInt16 ("0x" ++ strLengthHex) in
    let strDataEndPos := JS.add (JS.Int strDataStartPos) (JS.mul strLengthInt (JS.Int 2)) in
    if is0x codeString then inl []
    else inr ("0x" ++ JS.slice code (JS.Int strDataStartPos) strDataEndPos)
  else
    inr (JS.replace ("0x" ++ JS.substr code (JS.Int 138)) trailingZeros "").

(** index.ts, lines 269-272: an odd number of characters gets a trailing 0. *)
Definition padded (codeString : string) : string :=
  if JS.len codeString mod 2 =? 1 then codeString ++ "0" else codeString.

(** index.ts, lines 243-275. *)
Definition decodeMessage (code network : string) : result (list Z) :=
  match strippedHeader code network with
  | inl early => Ok early
  | inr codeString => Ethers.toUtf8String (padded codeString)
  end.

(** index.ts, lines 140-163. *)
Definition getRevertReason (txHash : string) (network : option string)
  (blockNumber : option string) : M (list Z) :=
  let network := match network with Some n => n | None => "mainnet" end in
  let '(network, blockNumber) := normalizeInput network blockNumber in
  lift (validateInputPreProvider txHash network) ;;
  let provider := getProvider network in
  validateInputPostProvider txHash network (Tag blockNumber) provider ;;
  try_catch
    (tx <- request (fun t => getTransaction provider t txHash) (GetTransaction txHash) ;;
     code <- getCode tx network (Tag blockNumber) provider ;;
     lift (decodeMessage code network))
    (fun _ => raise (Error "Unable to decode revert reason.")).

(** *** getReceipt *)

Definition removePending (txId : string) : M unit :=
  fun st =>
    (Return tt,
     {| pendingTransactions :=
          filter (fun tx => negb (tx =? txId)%string) (pendingTransactions st);
        log := log st |}).

(** index.ts, lines 82-102.  [fuel] bounds the number of polls. *)
Fixpoint getReceipt (fuel : nat) (txId : string) : M Receipt.t :=
  match fuel with
  | O => fun st => (Pending, st)
  | S fuel' =>
      receipt <- request (fun t => eth_getTransactionReceipt web3Instance t txId)
                         (GetTransactionReceipt txId) ;;
      match receipt with
      | None => getReceipt fuel' txId
      | Some receipt =>
          revertReason <-
            (if negb (Receipt.status receipt) then
               reason <- getRevertReason (Receipt.transactionHash receipt) (Some "ropsten") None ;;
               ret (Some reason)
             else ret None) ;;
          removePending txId ;;
          ret {| Receipt.receipt := receipt; Receipt.revertReason := revertReason |}
      end
  end.

(** *** transaction

    After [sendTransaction] has returned its stream, the rest of the method
    is one synchronous job: the [while (true)] loop holds no [await], so no
    handler of the stream runs while the loop does.  [Job] is the frame of
    the method with the event loop around it. *)

Record Job := {
  resultHash : option string;         (* let resultHash = undefined *)
  stream : list streamEvent;          (* emitted, not yet handled *)
  unhandled : list exn;               (* thrown by a handler, in the emitter *)
  settled : option (outcome string);  (* None: the body is still running *)
  pending : list string               (* this.pendingTransactions *)
}.

(** One step of the event loop.  While the body of the method runs, the
    step is a round of [while (true)]: [continue] when [resultHash] is
    falsy (undefined or empty), else the push and the return.  Once the
    body has returned, the step hands the next event of the stream to its
    handler: [transactionHash] assigns [resultHash], [error] throws in the
    emitter. *)
Definition step (j : Job) : Job :=
  match settled j with
  | None =>
      match resultHash j with
      | None | Some EmptyString => j
      | Some hash =>
          {| resultHash := resultHash j; stream := stream j;
             unhandled := unhandled j;
             settled := Some (Return hash);
             pending := pending j ++ [hash] |}
      end
  | Some _ =>
      match stream j with
      | transactionHash hash :: rest =>
          {| resultHash := Some hash; stream := rest; unhandled := unhandled j;
             settled := settled j; pending := pending j |}
      | error e :: rest =>
          {| resultHash := resultHash j; stream := rest;
             unhandled := unhandled j ++ [e];
             settled := settled j; pending := pending j |}
      | [] => j
      end
  end.

Fixpoint steps (fuel : nat) (j : Job) : Job :=
  match fuel with
  | O => j
  | S fuel' => steps fuel' (step j)
  end.

(** index.ts, lines 46-80.  [fuel] bounds the number of steps of the event
    loop that are watched. *)
Definition transaction (fuel : nat) (from : string) (method : ContractMethod.t)
  (args : list any) : M string :=
  let resultHash : option string := None in
  data <- lift (encodeMethod method args) ;;
  let tx := {| from := from; to := ContractMethod.address method; data := data; gas := None |} in
  try_catch
    (gas <- request (fun t => eth_estimateGas web3Instance t tx) (EstimateGas tx) ;;
     let tx := {| from := from; to := ContractMethod.address method; data := data; gas := Some gas |} in
     fun st =>
       let emits := eth_sendTransaction web3Instance (tick st) tx in
       let st := record (SendTransaction tx emits) st in
       let j := steps fuel {| resultHash := resultHash; stream := emits; unhandled := [];
                              settled := None; pending := pendingTransactions st |} in
       match settled j with
       | Some r => (r, {| pendingTransactions := pending j; log := log st |})
       | None => (Pending, st)
       end)
    (fun err => raise err).

End Service.

End Web3Service.

(** ** The revert payload of the specification

    The layout the decoder is specified against (section 4.4, step 6):
    the 4-byte selector of Error(string), a 32-byte offset, a 32-byte
    length, then the UTF-8 data padded on the right with zero bytes to a
    multiple of 32 bytes; all of it in hex after "0x".  It is written from
    the specification, to be decoded by the code above. *)

Module Payload.

Definition hexDigit (n : Z) : ascii :=
  match String.get (Z.to_nat n) "0123456789abcdef" with
  | Some c => c
  | None => "0"%char
  end.

Definition hexByte (b : Z) : string :=
  String (hexDigit (b / 16)) (String (hexDigit (b mod 16)) EmptyString).

Fixpoint hex (bytes : list Z) : string :=
  match bytes with
  | [] => EmptyString
  | b :: bytes' => hexByte b ++ hex bytes'
  end.

(** The big-endian bytes of [n], [width] of them. *)
Fixpoint bigEndian (width : nat) (n : Z) : list Z :=
  match width with
  | O => []
  | S w => bigEndian w (n / 256) ++ [n mod 256]
  end.

Definition word (n : Z) : list Z := bigEndian 32 n.

Definition rightPad (bytes : list Z) : list Z :=
  bytes ++ repeat 0 ((32 - List.length bytes mod 32) mod 32)%nat.

(** keccak256("Error(string)")[0..4] *)
Definition selector : list Z := [0x08; 0xc3; 0x79; 0xa0].

(** The UTF-8 bytes of a text written in ASCII. *)
Definition utf8 (message : string) : list Z := map JS.code (list_ascii_of_string message).

Definition encode (message : string) : string :=
  "0x" ++ hex (selector
               ++ word 32
               ++ word (Z.of_nat (List.length (utf8 message)))
               ++ rightPad (utf8 message)).

End Payload.

(** ** The vocabulary of the statements *)

(** The hexadecimal characters. *)
Definition isHexDigit (c : ascii) : Prop :=
  In c (list_ascii_of_string "0123456789abcdefABCDEF").

(** "0x" followed by exactly 64 hexadecimal characters. *)
Definition isTxHash (s : string) : Prop :=
  exists h, s = "0x" ++ h
            /\ String.length h = 64%nat
            /\ Forall isHexDigit (list_ascii_of_string h).

Definition hexClass : JS.charclass := [("A", "F"); ("a", "f"); ("0", "9")]%char.

(** The end of input, as the rest of a pattern. *)
Definition atEnd (_ : bool) (s : string) : option string :=
  match s with
  | EmptyString => Some s
  | String _ _ => None
  end.

(** A payload cut after the first nibble of its data: the selector, the
    offset 0x20, the length 1, and "f". *)
Definition cutPayload : string :=
  "0x08c379a0"
  ++ "0000000000000000000000000000000000000000000000000000000000000020"
  ++ "0000000000000000000000000000000000000000000000000000000000000001"
  ++ "f".

(** The string-length field of a payload, as the kovan branch reads it. *)
Definition lengthField (code : string) : JS.number :=
  JS.parseInt16
    ("0x" ++ JS.slice (JS.slice_from code (JS.Int 74)) (JS.Int 0) (JS.Int 64)).

(** The requests of the probe that comes first on kovan: the fetch of the
    transaction and its trial replay. *)
Definition probes (network : string) : nat :=
  if (network =? "kovan")%string then 2%nat else 0%nat.

Definition futureBlock : exn :=
  Error "You cannot use a blocknumber that has not yet happened.".

Definition archiveRequired : exn :=
  Error "You cannot use a blocknumber that is older than 128 blocks. Please use a provider that uses a full archival node.".

Definition unsupportedProvider : exn :=
  Error "Please use a provider that exposes the Parity trace methods to decode the revert reason.".

(** A method that leaves [pendingTransactions] as it found it. *)
Definition frames {A} (m : M A) : Prop :=
  forall st, pendingTransactions (snd (m st)) = pendingTransactions st.

Definition others (txId : string) (pending : list string) : list string :=
  filter (fun tx => negb (tx =? txId)%string) pending.

Fixpoint zeros (n : nat) : string :=
  match n with
  | O => EmptyString
  | S n' => String "0" (zeros n')
  end.

(** A string without its trailing "0" characters. *)
Fixpoint strip0 (s : string) : string :=
  match s with
  | EmptyString => EmptyString
  | String c s' =>
      match strip0 s' with
      | EmptyString => if (c =? "0")%char then EmptyString else String c EmptyString
      | t => String c t
      end
  end.

(** The class of the pattern /0+$/. *)
Definition zeroClass : JS.charclass := [("0", "0")]%char.

(** The bytes 0 .. 255, to check a property of [hexByte] on each. *)
Definition allBytes : list Z := map Z.of_nat (seq 0 256).

(** A text written in ASCII. *)
Definition isAscii (message : string) : Prop :=
  Forall (fun b => b < 128) (Payload.utf8 message).

(** A text whose last character is the NUL character. *)
Definition endsWithNul (message : string) : Prop :=
  last (Payload.utf8 message) 1 = 0.

(** The number that big-endian bytes write, after [acc]. *)
Definition beValue (acc : Z) (bytes : list Z) : Z :=
  fold_left (fun a b => 256 * a + b) bytes acc.

(** Bytes without their trailing zero bytes. *)
Fixpoint trimZeros (bytes : list Z) : list Z :=
  match bytes with
  | [] => []
  | b :: bytes' =>
      match trimZeros bytes' with
      | [] => if b =? 0 then [] else [b]
      | t => b :: t
      end
  end.

(** An entry that carries the name. *)
Definition named (name : string) (item : AbiItem.t) : Prop :=
  AbiItem.name item = Some name.

(** The networks that [validateInputPreProvider] accepts. *)
Definition supported : list string := ["mainnet"; "kovan"; "goerli"; "ropsten"; "rinkeby"].

(** The one error of a failed fetch, replay or decoding. *)
Definition unableToDecode : exn := Error "Unable to decode revert reason.".

(** ** The data of the scenarios *)

(** [Number] on the decimal literals that block numbers are written in. *)
Fixpoint digits10 (acc : Z) (s : string) : JS.number :=
  match s with
  | EmptyString => JS.Int acc
  | String c s' =>
      if JS.between "0" "9" c then digits10 (10 * acc + (JS.code c - 48)) s'
      else JS.NaN
  end.

Definition decimal (s : string) : JS.number :=
  match s with
  | EmptyString => JS.Int 0
  | _ => digits10 0 s
  end.

Definition aHash : string :=
  "0x4f2a1c0de9b83577a6d1e0c3b5f49218aa07c6e35d9014f2b8c7e6a1d3f5092b".

Definition aTransaction : Transaction :=
  {| tx_hash := aHash;
     tx_from := "0x00000000000000000000000000000000000000a1";
     tx_to := "0x00000000000000000000000000000000000000b2";
     tx_data := "0x29e99f07" |}.

(** A node at the given height that keeps the state of the last 128
    blocks only, and answers every replay with [payload]. *)
Definition pruningNode (height : Z) (payload : string) : Provider :=
  {| getTransaction := fun _ _ => Ok (Some aTransaction);
     provider_call := fun _ _ _ => Ok payload;
     getBlockNumber := fun _ => Ok height;
     getBalance := fun _ _ block =>
       if JS.lt block (JS.Int (height - 128))
       then Throw (Rejected (RpcError (Some (-32002)) None))
       else Ok 0 |}.

(** A node that does not know the transaction. *)
Definition foreignNode (height : Z) : Provider :=
  {| getTransaction := fun _ _ => Throw (Rejected NotJSON);
     provider_call := fun _ _ _ => Throw (Rejected NotJSON);
     getBlockNumber := fun _ => Ok height;
     getBalance := fun _ _ _ => Ok 0 |}.

(** src/abi/simple.abi.ts *)
Definition simpleABI : list AbiItem.t :=
  [ {| AbiItem.name := Some "getCalls"; AbiItem.type := "function";
       AbiItem.inputs := Some [];
       AbiItem.outputs := Some [{| param_name := ""; param_type := "uint256" |}] |};
    {| AbiItem.name := Some "testNumber"; AbiItem.type := "function";
       AbiItem.inputs := Some [{| param_name := "num"; param_type := "uint256" |}];
       AbiItem.outputs := Some [] |} ].

Definition aContract : string := "0x00000000000000000000000000000000000000b2".


Definition testNumber : ContractMethod.t :=
  {| ContractMethod.name := "testNumber"; ContractMethod.signature := "testNumber(uint256)";
     ContractMethod.address := aContract; ContractMethod.abi := simpleABI;
     ContractMethod.method := None |}.

(** A web3 instance whose read-only calls return [raw], whose receipts
    arrive at the third request with the given status, and whose
    submissions emit [emits].  Its codec writes the signature or the entry's
    name after "0x" and reads every output as the raw text. *)
Definition aWeb3 (raw : string) (status : bool) (emits : list streamEvent) : Web3 :=
  {| encodeFunctionSignature := fun signature => Ok ("0x" ++ signature);
     encodeFunctionCall := fun abiItem _ =>
       Ok ("0x" ++ match AbiItem.name abiItem with Some n => n | None => "" end);
     decodeParameters := fun outputs output =>
       Ok (map (fun o => (param_name o, Str output)) outputs);
     eth_call := fun _ _ _ => Ok raw;
     eth_estimateGas := fun _ _ => Ok 21000;
     eth_sendTransaction := fun _ _ => emits;
     eth_getTransactionReceipt := fun t txId =>
       if (t <? 2)%nat then Ok None
       else Ok (Some {| Receipt.status := status; Receipt.transactionHash := txId;
                        Receipt.blockNumber := 900 |}) |}.

Definition idle : State := {| pendingTransactions := []; log := [] |}.

Definition busy : State :=
  {| pendingTransactions :=
       ["0x01"; aHash; "0x02"; aHash; "0x01"];
     log := [] |}.

(** The receipt of a reverted transaction arrives at the third poll; the
    replay answers the payload of "Insufficient balance". *)
Definition revertedRun : outcome Receipt.t * State :=
  Web3Service.getReceipt (aWeb3 "0x" false [])
    (fun _ => pruningNode 1000 (Payload.encode "Insufficient balance"))
    decimal 3 aHash busy.

(** Two entries of one name: the first is found. *)
Definition overloaded : list AbiItem.t :=
  [ {| AbiItem.name := None; AbiItem.type := "constructor";
       AbiItem.inputs := Some []; AbiItem.outputs := None |};
    {| AbiItem.name := Some "set"; AbiItem.type := "function";
       AbiItem.inputs := Some [{| param_name := "value"; param_type := "uint256" |}];
       AbiItem.outputs := Some [] |};
    {| AbiItem.name := Some "set"; AbiItem.type := "function";
       AbiItem.inputs := Some [{| param_name := "value"; param_type := "string" |}];
       AbiItem.outputs := Some [] |} ].

(** A method that the ABI does not describe. *)
Definition getTotal : ContractMethod.t :=
  {| ContractMethod.name := "getTotal"; ContractMethod.signature := "getTotal()";
     ContractMethod.address := aContract; ContractMethod.abi := simpleABI;
     ContractMethod.method := None |}.

(** A node with the trace methods: it rejects every replay, with [data] in
    the error of the rejection. *)
Definition parityNode (height : Z) (data : string) : Provider :=
  {| getTransaction := fun _ _ => Ok (Some aTransaction);
     provider_call := fun _ _ _ => Throw (Rejected (RpcError (Some (-32015)) (Some data)));
     getBlockNumber := fun _ => Ok height;
     getBalance := fun _ _ _ => Ok 0 |}.

(** The providers of a caller whose node of ropsten prunes, and whose
    nodes of the other networks do not know the transaction. *)
Definition ropstenOnly (payload : string) (network : string) : Provider :=
  if (network =? "ropsten")%string then pruningNode 1000 payload else foreignNode 1000.

(** * Properties *)

(** ** Strings *)

Lemma length_append (a b : string) :
  String.length (a ++ b) = (String.length a + String.length b)%nat.
Proof.
  induction a as [|c a IH]; simpl; [reflexivity | now rewrite IH].
Qed.

Lemma length_drop (n : nat) (s : string) :
  String.length (JS.drop n s) = (String.length s - n)%nat.
Proof.
  revert s; induction n as [|n IH]; intros [|c s]; simpl; auto.
Qed.

Lemma length_take (n : nat) (s : string) :
  String.length (JS.take n s) = Nat.min n (String.length s).
Proof.
  revert s; induction n as [|n IH]; intros [|c s]; simpl; auto.
Qed.

Lemma len_append (a b : string) : JS.len (a ++ b) = JS.len a + JS.len b.
Proof.
  unfold JS.len. rewrite length_append. lia.
Qed.

(** ** decodeMessage *)

Example encode_hello :
  Payload.encode "hello" =
    "0x08c379a0"
    ++ "0000000000000000000000000000000000000000000000000000000000000020"
    ++ "0000000000000000000000000000000000000000000000000000000000000005"
    ++ "68656c6c6f000000000000000000000000000000000000000000000000000000".
Proof. vm_compute. reflexivity. Qed.

(** C1. Outside kovan, decoding the Error(string) payload of "hello" gives
    back exactly "hello". *)
Theorem decodeMessage_encode_hello (network : string) :
  network <> "kovan" ->
  Web3Service.decodeMessage (Payload.encode "hello") network = Ok (utf16 "hello").
Proof.
  intros Hnet.
  unfold Web3Service.decodeMessage, Web3Service.strippedHeader.
  apply String.eqb_neq in Hnet. rewrite Hnet.
  vm_compute. reflexivity.
Qed.

Lemma decodeMessage_encode_hello_mainnet :
  Web3Service.decodeMessage (Payload.encode "hello") "mainnet" = Ok (utf16 "hello").
Proof.
  apply (decodeMessage_encode_hello "mainnet"). discriminate.
Defined.

(** On kovan the same payload decodes to the same text, through the length
    field. *)
Example decodeMessage_encode_hello_kovan :
  Web3Service.decodeMessage (Payload.encode "hello") "kovan" = Ok (utf16 "hello").
Proof. vm_compute. reflexivity. Qed.

(** The padding restores a nibble that the stripping of zeros took from the
    last byte: "p" is 0x70. *)
Example decodeMessage_encode_p :
  Web3Service.strippedHeader (Payload.encode "p") "mainnet" = inr "0x7"
  /\ Web3Service.decodeMessage (Payload.encode "p") "mainnet" = Ok (utf16 "p").
Proof. split; vm_compute; reflexivity. Qed.

Lemma padded_odd (codeString : string) :
  JS.len codeString mod 2 = 1 ->
  Web3Service.padded codeString = codeString ++ "0".
Proof.
  intros H. unfold Web3Service.padded. rewrite H. reflexivity.
Qed.

Lemma arrayify_even (value : string) :
  JS.len value mod 2 = 0 ->
  Ethers.arrayify value <> Throw (ArgumentError "hex data is odd-length").
Proof.
  intros Heven. unfold Ethers.arrayify.
  destruct (Ethers.isHexString value); [|discriminate].
  replace (JS.len (JS.drop 2 value) mod 2 =? 0) with true; [discriminate|].
  symmetry. apply Z.eqb_eq.
  unfold JS.len in *. rewrite length_drop.
  destruct (String.length value) as [|[|n]] eqn:E; try reflexivity.
  replace (S (S n) - 2)%nat with n by lia.
  rewrite <- Heven. rewrite !Nat2Z.inj_succ.
  replace (Z.succ (Z.succ (Z.of_nat n))) with (Z.of_nat n + 1 * 2) by lia.
  now rewrite Z.mod_add.
Qed.

(** C5 as stated fails: the header-stripped string "0xf" has odd length,
    it is padded to "0xf0", and the decoder raises, since the byte 0xf0
    opens a four-byte character that has no continuation. *)
Lemma decodeMessage_odd_raises :
  Web3Service.strippedHeader cutPayload "mainnet" = inr "0xf"
  /\ JS.len "0xf" mod 2 = 1
  /\ Web3Service.decodeMessage cutPayload "mainnet"
     = Throw (ArgumentError "string overrun").
Proof. repeat split; vm_compute; reflexivity. Qed.

(** C5, amended. When the header-stripped string has odd length, the
    decoder appends exactly one "0" and hands the result, now of even
    length, to the UTF-8 decoder: the decoder's answer is that of
    [toUtf8String] on the padded string, and the conversion to bytes does
    not fail for an odd length. *)
Theorem decodeMessage_odd_padded (code network codeString : string) :
  Web3Service.strippedHeader code network = inr codeString ->
  JS.len codeString mod 2 = 1 ->
  Web3Service.decodeMessage code network = Ethers.toUtf8String (codeString ++ "0")
  /\ JS.len (codeString ++ "0") mod 2 = 0
  /\ Ethers.arrayify (codeString ++ "0") <> Throw (ArgumentError "hex data is odd-length").
Proof.
  intros Hstrip Hodd.
  assert (Heven : JS.len (codeString ++ "0") mod 2 = 0).
  { rewrite len_append. change (JS.len "0") with 1.
    rewrite Z.add_mod, Hodd by lia. reflexivity. }
  split; [|split].
  - unfold Web3Service.decodeMessage. rewrite Hstrip, padded_odd by assumption.
    reflexivity.
  - exact Heven.
  - apply arrayify_even, Heven.
Qed.

Lemma decodeMessage_odd_padded_p :
  Web3Service.decodeMessage (Payload.encode "p") "mainnet" = Ethers.toUtf8String ("0x7" ++ "0")
  /\ JS.len ("0x7" ++ "0") mod 2 = 0
  /\ Ethers.arrayify ("0x7" ++ "0") <> Throw (ArgumentError "hex data is odd-length").
Proof.
  apply (decodeMessage_odd_padded (Payload.encode "p") "mainnet" "0x7");
    vm_compute; reflexivity.
Defined.

Lemma len_slice (s : string) (a b : Z) :
  0 <= a <= b -> b <= JS.len s ->
  JS.len (JS.slice s (JS.Int a) (JS.Int b)) = b - a.
Proof.
  intros Hab Hb. unfold JS.slice, JS.relative, JS.ToInteger.
  destruct (Z.ltb_spec a 0); [lia|].
  destruct (Z.ltb_spec b 0); [lia|].
  unfold JS.len in *. rewrite length_take, length_drop. lia.
Qed.

(** C10. On kovan the guard [codeString === "0x"] is evaluated while
    [codeString] is still undefined, so the early return is never taken:
    for every payload the decoded span is the slice from position 138 whose
    end is computed from the length field, and when the payload holds that
    many characters the span is exactly twice the length. *)
Theorem kovan_guard_never_taken (code : string) :
  Web3Service.strippedHeader code "kovan" <> inl []
  /\ Web3Service.strippedHeader code "kovan"
     = inr ("0x" ++ JS.slice code (JS.Int 138)
                      (JS.add (JS.Int 138) (JS.mul (lengthField code) (JS.Int 2))))
  /\ Web3Service.decodeMessage code "kovan"
     = Ethers.toUtf8String
         (Web3Service.padded
            ("0x" ++ JS.slice code (JS.Int 138)
                       (JS.add (JS.Int 138) (JS.mul (lengthField code) (JS.Int 2)))))
  /\ forall n, lengthField code = JS.Int n -> 0 <= n -> 138 + n * 2 <= JS.len code ->
       JS.len (JS.slice code (JS.Int 138)
                 (JS.add (JS.Int 138) (JS.mul (lengthField code) (JS.Int 2)))) = n * 2.
Proof.
  assert (E : Web3Service.strippedHeader code "kovan"
              = inr ("0x" ++ JS.slice code (JS.Int 138)
                        (JS.add (JS.Int 138) (JS.mul (lengthField code) (JS.Int 2)))))
    by reflexivity.
  split; [|split; [|split]].
  - rewrite E. discriminate.
  - exact E.
  - unfold Web3Service.decodeMessage. rewrite E. reflexivity.
  - intros n Hn Hpos Hlen. rewrite Hn. cbn [JS.mul JS.add].
    rewrite len_slice; lia.
Qed.

(** ** validateInputPreProvider *)

Lemma in_class_hex (c : ascii) : JS.in_class hexClass c = true <-> isHexDigit c.
Proof.
  unfold isHexDigit.
  assert (E : JS.in_class hexClass c
              = existsb (Ascii.eqb c) (list_ascii_of_string "0123456789abcdefABCDEF")).
  { destruct c as [[] [] [] [] [] [] [] []]; reflexivity. }
  rewrite E, existsb_exists. split.
  - intros [x [Hin Heq]]. apply Ascii.eqb_eq in Heq. now subst.
  - intros Hin. exists c. split; [assumption | apply Ascii.eqb_refl].
Qed.

Lemma in_class_lit (c x : ascii) : JS.in_class [(c, c)] x = true <-> x = c.
Proof.
  unfold JS.in_class, JS.between, JS.code. simpl. rewrite orb_false_r, andb_true_iff, !Z.leb_le.
  split.
  - intros [H1 H2].
    assert (E : nat_of_ascii x = nat_of_ascii c) by lia.
    rewrite <- (ascii_nat_embedding x), <- (ascii_nat_embedding c). now rewrite E.
  - intros ->. lia.
Qed.

Lemma match_here_lit (c : ascii) (r : JS.regex) (bol : bool) (s : string) :
  JS.match_here (JS.lit c :: r) bol s
  = match s with
    | String x s' => if JS.in_class [(c, c)] x then JS.match_here r false s' else None
    | EmptyString => None
    end.
Proof. destruct s; reflexivity. Qed.

Lemma match_here_exactly_Eol (cls : JS.charclass) (n : nat) (bol : bool) (s : string) :
  JS.match_here [JS.Atom cls (JS.Exactly n); JS.Eol] bol s
  = JS.eat_exactly cls atEnd bol n s.
Proof. reflexivity. Qed.

Lemma eat_exactly_atEnd (cls : JS.charclass) (n : nat) :
  forall bol s,
    JS.eat_exactly cls atEnd bol n s <> None
    <-> String.length s = n
        /\ Forall (fun c => JS.in_class cls c = true) (list_ascii_of_string s).
Proof.
  induction n as [|n IH]; intros bol [|c s]; simpl.
  - split; [intros _; split; [reflexivity | constructor] | discriminate].
  - split; [intros H; now elim H | intros [H _]; discriminate].
  - split; [intros H; now elim H | intros [H _]; discriminate].
  - destruct (JS.in_class cls c) eqn:Hc.
    + rewrite IH. split.
      * intros [Hl Hall]. split; [now rewrite Hl | now constructor].
      * intros [Hl Hall]. inversion Hall; subst. split; [congruence | assumption].
    + split; [intros H; now elim H|].
      intros [_ Hall]. inversion Hall; subst. congruence.
Qed.

(** A pattern that opens with [^] matches at the start of the input or
    nowhere. *)
Lemma exec_at_Bol_later (r : JS.regex) (s : string) :
  JS.exec_at (JS.Bol :: r) false s = None.
Proof.
  induction s as [|c s IH]; simpl; [reflexivity | now rewrite IH].
Qed.

Lemma test_Bol (r : JS.regex) (s : string) :
  JS.test (JS.Bol :: r) s = true <-> JS.match_here r true s <> None.
Proof.
  unfold JS.test.
  destruct s as [|c s]; simpl.
  - destruct (JS.match_here r true ""); split; congruence.
  - destruct (JS.match_here r true (String c s)).
    + split; congruence.
    + rewrite exec_at_Bol_later. split; congruence.
Qed.

Lemma test_txHashRegex (s : string) :
  JS.test Web3Service.txHashRegex s = true <-> isTxHash s.
Proof.
  unfold Web3Service.txHashRegex. rewrite test_Bol, match_here_lit.
  unfold isTxHash. split.
  - destruct s as [|c0 s]; [congruence|].
    destruct (JS.in_class [("0", "0")]%char c0) eqn:H0; [|congruence].
    rewrite match_here_lit.
    destruct s as [|c1 h]; [congruence|].
    destruct (JS.in_class [("x", "x")]%char c1) eqn:H1; [|congruence].
    apply in_class_lit in H0, H1. subst c0 c1.
    rewrite match_here_exactly_Eol, eat_exactly_atEnd.
    intros [Hlen Hall].
    exists h. repeat split; try assumption.
    eapply Forall_impl; [|exact Hall]. intros c. apply in_class_hex.
  - intros [h [-> [Hlen Hall]]].
    change ("0x" ++ h) with (String "0" (String "x" h)).
    cbv beta iota.
    replace (JS.in_class [("0", "0")]%char "0") with true by reflexivity.
    rewrite match_here_lit. cbv beta iota.
    replace (JS.in_class [("x", "x")]%char "x") with true by reflexivity.
    rewrite match_here_exactly_Eol, eat_exactly_atEnd.
    split; [assumption|].
    eapply Forall_impl; [|exact Hall]. intros c. apply in_class_hex.
Qed.

Lemma validateInputPreProvider_well_formed (txHash network : string) :
  isTxHash txHash ->
  Web3Service.validateInputPreProvider txHash network
  = if Web3Service.includes ["mainnet"; "kovan"; "goerli"; "ropsten"; "rinkeby"] network
    then Ok tt
    else Throw (Error "Not a valid network").
Proof.
  intros Hhash. unfold Web3Service.validateInputPreProvider.
  pose proof (proj2 (test_txHashRegex txHash) Hhash) as Htest. rewrite Htest.
  destruct Hhash as [h [-> _]].
  change (JS.substring0 ("0x" ++ h) 2) with "0x".
  cbn [negb orb String.eqb Ascii.eqb Bool.eqb].
  destruct (Web3Service.includes _ network); reflexivity.
Qed.

(** C2. A string that is "0x" followed by exactly 64 hexadecimal characters
    passes the check of the hash, so that the validation only depends on the
    network; every other string fails with the error of an invalid
    transaction hash. *)
Theorem validateInputPreProvider_txHash (txHash network : string) :
  (isTxHash txHash ->
   Web3Service.validateInputPreProvider txHash network
   = if Web3Service.includes ["mainnet"; "kovan"; "goerli"; "ropsten"; "rinkeby"] network
     then Ok tt
     else Throw (Error "Not a valid network"))
  /\ (~ isTxHash txHash ->
      Web3Service.validateInputPreProvider txHash network
      = Throw (Error "Invalid transaction hash")).
Proof.
  split.
  - apply validateInputPreProvider_well_formed.
  - intros Hno. unfold Web3Service.validateInputPreProvider.
    destruct (JS.test Web3Service.txHashRegex txHash) eqn:Htest.
    + elim Hno. now apply test_txHashRegex.
    + reflexivity.
Qed.

Lemma includes_In (l : list string) (x : string) :
  Web3Service.includes l x = true <-> In x l.
Proof.
  unfold Web3Service.includes. rewrite existsb_exists. split.
  - intros [y [Hin Heq]]. apply String.eqb_eq in Heq. now subst.
  - intros Hin. exists x. split; [assumption | apply String.eqb_refl].
Qed.

(** X3. With a well-formed hash, the validation succeeds on the five
    supported networks and fails with the error of an invalid network on
    every other name. *)
Theorem validateInputPreProvider_network (txHash network : string) :
  isTxHash txHash ->
  (In network ["mainnet"; "kovan"; "goerli"; "ropsten"; "rinkeby"] ->
   Web3Service.validateInputPreProvider txHash network = Ok tt)
  /\ (~ In network ["mainnet"; "kovan"; "goerli"; "ropsten"; "rinkeby"] ->
      Web3Service.validateInputPreProvider txHash network
      = Throw (Error "Not a valid network")).
Proof.
  intros Hhash. rewrite (validateInputPreProvider_well_formed _ _ Hhash).
  split; intros Hin.
  - apply includes_In in Hin. now rewrite Hin.
  - destruct (Web3Service.includes _ network) eqn:E; [|reflexivity].
    apply includes_In in E. contradiction.
Qed.

(** ** validateInputPostProvider *)

Lemma skipn_length_app {A} (l r : list A) : skipn (List.length l) (l ++ r) = r.
Proof. induction l; simpl; auto. Qed.

Lemma events_since_refl (st : State) : events_since st st = [].
Proof.
  unfold events_since, tick. rewrite <- (app_nil_r (log st)) at 2.
  apply skipn_length_app.
Qed.

Lemma events_since_1 (st : State) (e1 : event) :
  events_since st (record e1 st) = [e1].
Proof. unfold events_since, tick. simpl. apply skipn_length_app. Qed.

Lemma events_since_2 (st : State) (e1 e2 : event) :
  events_since st (record e2 (record e1 st)) = [e1; e2].
Proof.
  unfold events_since, tick. simpl. rewrite <- app_assoc. apply skipn_length_app.
Qed.

Lemma events_since_3 (st : State) (e1 e2 e3 : event) :
  events_since st (record e3 (record e2 (record e1 st))) = [e1; e2; e3].
Proof.
  unfold events_since, tick. simpl. rewrite <- !app_assoc. apply skipn_length_app.
Qed.

Lemma events_since_4 (st : State) (e1 e2 e3 e4 : event) :
  events_since st (record e4 (record e3 (record e2 (record e1 st)))) = [e1; e2; e3; e4].
Proof.
  unfold events_since, tick. simpl. rewrite <- !app_assoc. apply skipn_length_app.
Qed.

Lemma tick_record (e : event) (st : State) : tick (record e st) = S (tick st).
Proof. unfold tick. simpl. rewrite length_app. simpl. lia. Qed.

(** The steps of an asynchronous method, unfolded. *)
Ltac run :=
  unfold bind, try_catch, detached, request, lift, ret, raise; cbn [negb fst snd].

Section PostProvider.

Variable StringToNumber : string -> JS.number.
Variables (txHash network : string) (blockNumber : blockTag) (provider : Provider).

Local Abbreviation validate :=
  (Web3Service.validateInputPostProvider StringToNumber txHash network blockNumber provider).

Lemma validateInputPostProvider_refuses (st : State) (n cur : Z) :
  network <> "kovan" ->
  Web3Service.is_latest blockNumber = false ->
  Web3Service.Number StringToNumber blockNumber = JS.Int n ->
  getBlockNumber provider (tick st) = Ok cur ->
  cur <= n ->
  validate st = (Raise futureBlock, record (GetBlockNumber (Ok cur)) st).
Proof.
  intros Hnet Hlatest Hnum Hcur Hge.
  apply String.eqb_neq in Hnet.
  unfold Web3Service.validateInputPostProvider.
  rewrite Hnet, Hlatest, Hnum. run. rewrite Hcur. cbn [JS.ge].
  replace (n >=? cur) with true by (symmetry; apply Z.geb_le; lia).
  reflexivity.
Qed.

(** C3, amended. On a network other than kovan, a requested block number
    at or above the current chain height makes the validation fail with the
    error of a block that has not happened, after the query of the height
    as its only request, hence before any replay; a block strictly below
    the height passes this check. *)
Theorem validateInputPostProvider_future_block (st : State) (n cur : Z) :
  network <> "kovan" ->
  Web3Service.is_latest blockNumber = false ->
  Web3Service.Number StringToNumber blockNumber = JS.Int n ->
  getBlockNumber provider (tick st) = Ok cur ->
  (cur <= n ->
   validate st = (Raise futureBlock, record (GetBlockNumber (Ok cur)) st)
   /\ existsb is_replay (events_since st (snd (validate st))) = false)
  /\ (n < cur -> fst (validate st) <> Raise futureBlock).
Proof.
  intros Hnet Hlatest Hnum Hcur.
  split.
  - intros Hge.
    rewrite (validateInputPostProvider_refuses st n cur) by assumption.
    split; [reflexivity|]. cbn [snd]. rewrite events_since_1. reflexivity.
  - intros Hlt.
    apply String.eqb_neq in Hnet.
    unfold Web3Service.validateInputPostProvider.
    rewrite Hnet, Hlatest, Hnum. run. rewrite Hcur. cbn [JS.ge JS.lt JS.sub].
    replace (n >=? cur) with false by (symmetry; rewrite Z.geb_leb; apply Z.leb_gt; lia).
    destruct (n <? cur - 128); [|cbn; discriminate].
    destruct (getBalance provider _ _ _) as [b|e]; [cbn; discriminate|].
    unfold Web3Service.parsedError.
    destruct (Web3Service.responseText e) as [| |[c|] d]; cbn; try discriminate.
    destruct (c =? Web3Service.infuraErrCode); cbn; discriminate.
Qed.

(** The trial replay of the probe: one [provider.call], recorded with
    its answer, whatever that answer is. *)
Lemma detached_getCode (tx : option Transaction) (st : State) :
  detached (Web3Service.getCode tx network blockNumber provider) st
  = (Return tt,
     record (Call tx blockNumber (provider_call provider (tick st) tx blockNumber)) st).
Proof.
  unfold Web3Service.getCode, detached.
  destruct (network =? "kovan")%string; run.
  - destruct (provider_call provider (tick st) tx blockNumber) as [code|e];
      [reflexivity|].
    cbn [fst snd]. destruct (Web3Service.parsedError e _); reflexivity.
  - destruct (provider_call provider (tick st) tx blockNumber); reflexivity.
Qed.

(** index.ts, lines 214-239: the validation of a block number other than
    "latest", which follows the probe. *)
Local Abbreviation checkBlock :=
  (bind (request (getBlockNumber provider) GetBlockNumber)
      (fun currentBlockNumber =>
         let blockNumber := Web3Service.Number StringToNumber blockNumber in
         if JS.ge blockNumber (JS.Int currentBlockNumber) then raise futureBlock
         else if JS.lt blockNumber (JS.sub (JS.Int currentBlockNumber) (JS.Int 128)) then
           try_catch
             (bind (request (fun t => getBalance provider t Web3Service.AddressZero blockNumber)
                      (GetBalance Web3Service.AddressZero blockNumber))
                (fun _ => ret tt))
             (fun err =>
                bind (lift (Web3Service.parsedError err (fun code _ => Ok code)))
                  (fun errCode =>
                     match errCode with
                     | Some errCode =>
                         if errCode =? Web3Service.infuraErrCode
                         then raise archiveRequired
                         else ret tt
                     | None => ret tt
                     end))
         else ret tt)).

(** The validation once the probe is over: [st1] is the state that the
    probe leaves, [st] itself outside kovan. *)
Lemma validateInputPostProvider_after_probe (st st1 : State) :
  (if (network =? "kovan")%string
   then exists tx,
          getTransaction provider (tick st) txHash = Ok tx
          /\ st1 = record (Call tx blockNumber
                             (provider_call provider (S (tick st)) tx blockNumber))
                     (record (GetTransaction txHash (Ok tx)) st)
   else st1 = st) ->
  Web3Service.is_latest blockNumber = false ->
  validate st = checkBlock st1.
Proof.
  intros Hprobe Hlatest.
  unfold Web3Service.validateInputPostProvider. rewrite Hlatest. cbn [negb].
  destruct (network =? "kovan")%string.
  - destruct Hprobe as [tx [Htx ->]].
    unfold bind at 1. unfold try_catch at 1. unfold bind at 1. unfold request at 1.
    rewrite Htx. cbn [lift ret]. rewrite detached_getCode, tick_record. reflexivity.
  - subst st1. reflexivity.
Qed.

(** C4. For a requested block number and the height that the provider
    answers, after the probe on kovan: a block at most 128 blocks behind
    the height never makes the validation fail with the error of a missing
    archive node.  For a block more than 128 blocks behind, once the probe
    of kovan has fetched the transaction, the validation asks the height
    and then the balance of the zero address at that block, and it fails
    with that error exactly when this query is rejected with the code
    -32002. *)
Theorem validateInputPostProvider_archive (st : State) (n cur : Z) :
  Web3Service.is_latest blockNumber = false ->
  Web3Service.Number StringToNumber blockNumber = JS.Int n ->
  getBlockNumber provider (tick st + probes network) = Ok cur ->
  (cur - n <= 128 -> fst (validate st) <> Raise archiveRequired)
  /\ (128 < cur - n ->
      (network = "kovan" -> exists tx, getTransaction provider (tick st) txHash = Ok tx) ->
      let canary :=
        getBalance provider (tick st + probes network + 1) Web3Service.AddressZero
          (JS.Int n) in
      skipn (probes network) (events_since st (snd (validate st)))
      = [GetBlockNumber (Ok cur); GetBalance Web3Service.AddressZero (JS.Int n) canary]
      /\ (fst (validate st) = Raise archiveRequired
          <-> exists data, canary = Throw (Rejected (RpcError (Some (-32002)) data)))).
Proof.
  intros Hlatest Hnum Hcur.
  assert (Hrun : forall st1 : State,
             tick st1 = (tick st + probes network)%nat ->
             validate st = checkBlock st1 ->
             (cur - n <= 128 -> fst (validate st) <> Raise archiveRequired)
             /\ (128 < cur - n ->
                 let canary :=
                   getBalance provider (tick st + probes network + 1)
                     Web3Service.AddressZero (JS.Int n) in
                 snd (validate st)
                 = record (GetBalance Web3Service.AddressZero (JS.Int n) canary)
                     (record (GetBlockNumber (Ok cur)) st1)
                 /\ (fst (validate st) = Raise archiveRequired
                     <-> exists data,
                         canary = Throw (Rejected (RpcError (Some (-32002)) data))))).
  { intros st1 Htick ->. rewrite Hnum. run. rewrite Htick, Hcur.
    cbn [JS.ge JS.lt JS.sub]. split.
    - intros Hwin.
      replace (n <? cur - 128) with false by (symmetry; apply Z.ltb_ge; lia).
      destruct (n >=? cur); cbn; discriminate.
    - intros Hold. cbv zeta.
      replace (n >=? cur) with false
        by (symmetry; rewrite Z.geb_leb; apply Z.leb_gt; lia).
      replace (n <? cur - 128) with true by (symmetry; apply Z.ltb_lt; lia).
      rewrite tick_record, Htick.
      replace (S (tick st + probes network)) with (tick st + probes network + 1)%nat
        by lia.
      destruct (getBalance provider (tick st + probes network + 1)
                  Web3Service.AddressZero (JS.Int n)) as [balance|e].
      + split; [reflexivity|]. cbn. split; [discriminate|].
        intros [data H]. discriminate H.
      + unfold Web3Service.parsedError.
        destruct e as [m|v|[| |[c|] d]| | |r]; cbn [Web3Service.responseText fst snd].
        all: try (split; [reflexivity|]; split;
                  [discriminate | intros [data H]; discriminate H]).
        destruct (Z.eqb_spec c Web3Service.infuraErrCode) as [->|Hc].
        * split; [reflexivity|]. split; [|reflexivity]. intros _. now exists d.
        * split; [reflexivity|]. split; [discriminate|].
          intros [data H]. injection H as -> _. now elim Hc. }
  assert (Hafter : forall st1, _ -> validate st = checkBlock st1)
    by (intros st1 Hprobe;
        exact (validateInputPostProvider_after_probe st st1 Hprobe Hlatest)).
  unfold probes in *.
  destruct (network =? "kovan")%string eqn:Hk.
  - destruct (getTransaction provider (tick st) txHash) as [tx|e] eqn:Htx.
    + set (st1 := record (Call tx blockNumber
                            (provider_call provider (S (tick st)) tx blockNumber))
                    (record (GetTransaction txHash (Ok tx)) st)).
      assert (Htick : tick st1 = (tick st + 2)%nat)
        by (unfold st1; rewrite !tick_record; lia).
      assert (Hprobe : exists tx0,
                 Ok tx = Ok tx0
                 /\ st1 = record (Call tx0 blockNumber
                                    (provider_call provider (S (tick st)) tx0 blockNumber))
                            (record (GetTransaction txHash (Ok tx0)) st))
        by (exists tx; split; reflexivity).
      destruct (Hrun st1 Htick (Hafter st1 Hprobe)) as [Hin Hout].
      split; [exact Hin|].
      intros Hold _. destruct (Hout Hold) as [Hst Hiff].
      split; [|exact Hiff].
      rewrite Hst. unfold st1. rewrite events_since_4. reflexivity.
    + split.
      * intros _. unfold Web3Service.validateInputPostProvider. rewrite Hk. run.
        rewrite Htx. cbn [fst]. discriminate.
      * intros _ Hprobe.
        destruct (Hprobe (proj1 (String.eqb_eq _ _) Hk)) as [tx Habs].
        discriminate Habs.
  - assert (Htick : tick st = (tick st + 0)%nat) by lia.
    destruct (Hrun st Htick (Hafter st eq_refl)) as [Hin Hout].
    split; [exact Hin|].
    intros Hold _. destruct (Hout Hold) as [Hst Hiff].
    split; [|exact Hiff].
    rewrite Hst. rewrite events_since_2. reflexivity.
Qed.

End PostProvider.

(** X5. The same at the level of the revert resolution: with a well-formed
    hash, a supported network other than kovan and a block number at or
    above the height, [getRevertReason] fails with that error and its only
    request is the query of the height. *)
Lemma getRevertReason_future_block (getDefaultProvider : string -> Provider)
  (StringToNumber : string -> JS.number) (txHash network block : string)
  (st : State) (n cur : Z) :
  isTxHash txHash ->
  In (JS.toLowerCase network) ["mainnet"; "goerli"; "ropsten"; "rinkeby"] ->
  block <> "" -> block <> "latest" ->
  StringToNumber block = JS.Int n ->
  getBlockNumber (getDefaultProvider (JS.toLowerCase network)) (tick st) = Ok cur ->
  cur <= n ->
  Web3Service.getRevertReason getDefaultProvider StringToNumber txHash
    (Some network) (Some block) st
  = (Raise futureBlock, record (GetBlockNumber (Ok cur)) st).
Proof.
  intros Hhash Hnet Hempty Hlatest Hnum Hcur Hge.
  unfold Web3Service.getRevertReason, Web3Service.normalizeInput.
  destruct block as [|c block']; [now elim Hempty|].
  set (block := String c block') in *.
  rewrite (validateInputPreProvider_well_formed _ _ Hhash).
  assert (Hinc : Web3Service.includes ["mainnet"; "kovan"; "goerli"; "ropsten"; "rinkeby"]
                   (JS.toLowerCase network) = true).
  { simpl in Hnet. destruct Hnet as [<-|[<-|[<-|[<-|[]]]]]; reflexivity. }
  rewrite Hinc. unfold bind at 1. cbn [lift ret]. unfold bind at 1.
  unfold Web3Service.getProvider.
  rewrite (validateInputPostProvider_refuses StringToNumber txHash
             (JS.toLowerCase network) (Tag block) _ st n cur); try assumption.
  - reflexivity.
  - simpl in Hnet. destruct Hnet as [<-|[<-|[<-|[<-|[]]]]]; discriminate.
  - cbn [Web3Service.is_latest]. now apply String.eqb_neq.
Qed.

(** ** encodeMethod, decodeOutput and call *)

Lemma findInABI_Ok (name : string) (abi : list AbiItem.t) (abiItem : AbiItem.t) :
  findInABI name abi = Ok abiItem ->
  In abiItem abi /\ AbiItem.name abiItem = Some name.
Proof.
  unfold findInABI.
  destruct (find _ abi) as [found|] eqn:Hfind; [|discriminate].
  intros H. injection H as <-.
  apply find_some in Hfind. destruct Hfind as [Hin Hname].
  split; [assumption|].
  destruct (AbiItem.name found) as [n|]; [|discriminate].
  apply String.eqb_eq in Hname. now subst.
Qed.

Lemma findInABI_Throw (name : string) (abi : list AbiItem.t) :
  (forall item, In item abi -> AbiItem.name item <> Some name) ->
  findInABI name abi = Throw (Thrown "No ABI found").
Proof.
  intros Hnone. unfold findInABI.
  destruct (find _ abi) as [found|] eqn:Hfind; [|reflexivity].
  apply find_some in Hfind. destruct Hfind as [Hin Hname].
  destruct (AbiItem.name found) as [n|] eqn:Hn; [|discriminate].
  apply String.eqb_eq in Hname. subst n.
  now elim (Hnone found Hin).
Qed.


Section Call.

Variable web3Instance : Web3.
Variable method : ContractMethod.t.
Variable args : list any.

Local Abbreviation name := (ContractMethod.name method).
Local Abbreviation abi := (ContractMethod.abi method).

(** C7. Without arguments the encoding is the function selector that the
    codec derives from the signature, whatever the ABI holds; with
    arguments the entry is looked up by name in the ABI, and the encoding is
    the codec's full encoding of that entry and the arguments, or the
    lookup's failure when no entry has the name. *)
Theorem encodeMethod_selector_or_full :
  (args = [] ->
   Web3Service.encodeMethod web3Instance method args
   = encodeFunctionSignature web3Instance (ContractMethod.signature method))
  /\ (args <> [] ->
      (forall abiItem,
          findInABI name abi = Ok abiItem ->
          In abiItem abi
          /\ AbiItem.name abiItem = Some name
          /\ Web3Service.encodeMethod web3Instance method args
             = encodeFunctionCall web3Instance abiItem args)
      /\ ((forall item, In item abi -> AbiItem.name item <> Some name) ->
          Web3Service.encodeMethod web3Instance method args
          = Throw (Thrown "No ABI found"))).
Proof.
  unfold Web3Service.encodeMethod. split.
  - intros ->. reflexivity.
  - intros Hargs.
    destruct args as [|a l]; [now elim Hargs|]. cbn [List.length Nat.eqb].
    split.
    + intros abiItem Hfind.
      destruct (findInABI_Ok _ _ _ Hfind) as [Hin Hname].
      rewrite Hfind. repeat split; assumption.
    + intros Hnone. rewrite (findInABI_Throw _ _ Hnone). reflexivity.
Qed.


End Call.

(** ** getReceipt and the pending transactions *)

Lemma frames_ret {A} (a : A) : frames (ret a).
Proof. intros st. reflexivity. Qed.

Lemma frames_raise {A} (e : exn) : frames (@raise A e).
Proof. intros st. reflexivity. Qed.

Lemma frames_lift {A} (r : result A) : frames (lift r).
Proof. destruct r; intros st; reflexivity. Qed.

Lemma frames_request {A} (answer : nat -> result A) (ev : result A -> event) :
  frames (request answer ev).
Proof.
  intros st. unfold request. destruct (answer (tick st)); reflexivity.
Qed.

Lemma frames_bind {A B} (m : M A) (k : A -> M B) :
  frames m -> (forall a, frames (k a)) -> frames (bind m k).
Proof.
  intros Hm Hk st. unfold bind. specialize (Hm st).
  destruct (m st) as [[a|e|] st1]; cbn [snd] in *; try assumption.
  now rewrite Hk.
Qed.

Lemma frames_try_catch {A} (m : M A) (h : exn -> M A) :
  frames m -> (forall e, frames (h e)) -> frames (try_catch m h).
Proof.
  intros Hm Hh st. unfold try_catch. specialize (Hm st).
  destruct (m st) as [[a|e|] st1]; cbn [snd] in *; try assumption.
  now rewrite Hh.
Qed.

Lemma frames_detached {A} (m : M A) : frames m -> frames (detached m).
Proof. intros Hm st. apply Hm. Qed.

Lemma frames_if {A} (b : bool) (m1 m2 : M A) :
  frames m1 -> frames m2 -> frames (if b then m1 else m2).
Proof. destruct b; auto. Qed.

Create HintDb frames.
#[local] Hint Resolve frames_ret frames_raise frames_lift frames_request
  frames_detached frames_if : frames.
#[local] Hint Extern 2 (frames (bind _ _)) => apply frames_bind; [|intros ?] : frames.
#[local] Hint Extern 2 (frames (try_catch _ _)) => apply frames_try_catch; [|intros ?] : frames.
#[local] Hint Extern 3 (frames (match ?x with _ => _ end)) => destruct x : frames.

Lemma not_in_others (txId : string) (pending : list string) :
  ~ In txId (others txId pending).
Proof.
  intros Hin. apply filter_In in Hin. destruct Hin as [_ Hne].
  now rewrite String.eqb_refl in Hne.
Qed.

Lemma count_occ_others (txId hash : string) (pending : list string) :
  hash <> txId ->
  count_occ string_dec (others txId pending) hash = count_occ string_dec pending hash.
Proof.
  intros Hne. unfold others.
  induction pending as [|tx l IH]; [reflexivity|].
  cbn [filter]. destruct (String.eqb_spec tx txId) as [->|Hne']; cbn [negb].
  - rewrite IH. cbn [count_occ].
    destruct (string_dec txId hash); [congruence | reflexivity].
  - cbn [count_occ]. rewrite IH. reflexivity.
Qed.

Section Receipt.

Variable web3Instance : Web3.
Variable getDefaultProvider : string -> Provider.
Variable StringToNumber : string -> JS.number.

Lemma frames_getCode tx network blockNumber provider :
  frames (Web3Service.getCode tx network blockNumber provider).
Proof. unfold Web3Service.getCode. auto 10 with frames. Qed.

Lemma frames_validateInputPostProvider txHash network blockNumber provider :
  frames (Web3Service.validateInputPostProvider StringToNumber txHash network
            blockNumber provider).
Proof.
  unfold Web3Service.validateInputPostProvider.
  pose proof frames_getCode. auto 12 with frames.
Qed.

Lemma frames_getRevertReason txHash network blockNumber :
  frames (Web3Service.getRevertReason getDefaultProvider StringToNumber txHash
            network blockNumber).
Proof.
  unfold Web3Service.getRevertReason.
  destruct (Web3Service.normalizeInput _ _) as [net block].
  pose proof frames_getCode. pose proof frames_validateInputPostProvider.
  auto 12 with frames.
Qed.

Local Abbreviation getReceipt :=
  (Web3Service.getReceipt web3Instance getDefaultProvider StringToNumber).

Lemma getReceipt_filters (fuel : nat) (txId : string) :
  forall st r st',
    getReceipt fuel txId st = (Return r, st') ->
    pendingTransactions st' = others txId (pendingTransactions st).
Proof.
  induction fuel as [|fuel IH]; intros st r st'; cbn [Web3Service.getReceipt].
  - discriminate.
  - unfold bind at 1. unfold request.
    destruct (eth_getTransactionReceipt web3Instance (tick st) txId) as [[rc|]|e];
      cbn [lift ret raise].
    + unfold bind at 1.
      destruct (Receipt.status rc); cbn [negb].
      * cbn. intros H. injection H as _ <-. reflexivity.
      * unfold bind at 1.
        pose proof (frames_getRevertReason (Receipt.transactionHash rc)
                      (Some "ropsten") None (record (GetTransactionReceipt txId (Ok (Some rc))) st))
          as Hframe.
        destruct (Web3Service.getRevertReason _ _ _ _ _ _) as [[reason| |] st1];
          cbn [snd] in Hframe; cbn; try discriminate.
        unfold ret. intros H. injection H as _ <-.
        cbn [pendingTransactions]. rewrite Hframe. reflexivity.
    + intros H. apply IH in H. exact H.
    + discriminate.
Qed.

(** C8. When [getReceipt] returns, with a receipt of either status, the
    pending transactions are those from before without the hash: the hash
    is no longer among them, and every other hash is there as often as
    before, in the same order. *)
Theorem getReceipt_removes_pending (fuel : nat) (txId : string)
  (st st' : State) (r : Receipt.t) :
  getReceipt fuel txId st = (Return r, st') ->
  pendingTransactions st' = others txId (pendingTransactions st)
  /\ ~ In txId (pendingTransactions st')
  /\ forall hash, hash <> txId ->
       count_occ string_dec (pendingTransactions st') hash
       = count_occ string_dec (pendingTransactions st) hash.
Proof.
  intros H. apply getReceipt_filters in H. rewrite H.
  split; [reflexivity|]. split.
  - apply not_in_others.
  - intros hash Hne. now apply count_occ_others.
Qed.

(** X4. The loop ends: when the receipt arrives at the poll number [k]
    with a success status, [k + 1] polls are enough for [getReceipt] to
    return it, without a revert reason. *)
Lemma getReceipt_returns (txId : string) (rc : Receipt.base) (k : nat) :
  forall st extra,
    (forall i, (i < k)%nat ->
               eth_getTransactionReceipt web3Instance (tick st + i) txId = Ok None) ->
    eth_getTransactionReceipt web3Instance (tick st + k) txId = Ok (Some rc) ->
    Receipt.status rc = true ->
    exists st',
      getReceipt (S k + extra) txId st
      = (Return {| Receipt.receipt := rc; Receipt.revertReason := None |}, st').
Proof.
  induction k as [|k IH]; intros st extra Hnone Hsome Hstatus.
  - rewrite Nat.add_0_r in Hsome.
    cbn [Web3Service.getReceipt Nat.add]. unfold bind at 1. unfold request.
    rewrite Hsome. cbn [lift ret]. unfold bind at 1. rewrite Hstatus. cbn.
    eexists. reflexivity.
  - cbn [Web3Service.getReceipt Nat.add]. unfold bind at 1. unfold request.
    pose proof (Hnone 0%nat ltac:(lia)) as H0.
    rewrite Nat.add_0_r in H0. rewrite H0.
    cbn [lift ret].
    apply (IH _ extra).
    + intros i Hi. rewrite tick_record.
      replace (S (tick st) + i)%nat with (tick st + S i)%nat by lia.
      apply Hnone. lia.
    + rewrite tick_record.
      replace (S (tick st) + k)%nat with (tick st + S k)%nat by lia.
      exact Hsome.
    + exact Hstatus.
Qed.

End Receipt.

(** ** transaction *)

Section Transaction.

Variable web3Instance : Web3.

(** While the body of the method runs and [resultHash] is undefined, a
    round of the loop changes nothing: no handler runs in between. *)
Lemma steps_spin (fuel : nat) (j : Web3Service.Job) :
  Web3Service.settled j = None ->
  Web3Service.resultHash j = None ->
  Web3Service.steps fuel j = j.
Proof.
  intros Hs Hr. induction fuel as [|fuel IH]; [reflexivity|].
  cbn [Web3Service.steps].
  replace (Web3Service.step j) with j; [exact IH|].
  unfold Web3Service.step. now rewrite Hs, Hr.
Qed.

(** C9 fails on the code.  The outcome of [transaction] does not depend on
    what the stream emits: the method rejects when the encoding or the gas
    estimate fails, and otherwise its promise stays pending for every
    number of rounds of the loop, so an error of the stream never reaches
    the caller (nor does the hash). *)
Theorem transaction_ignores_stream (fuel : nat) (from : string)
  (method : ContractMethod.t) (args : list any) (st : State) :
  fst (Web3Service.transaction web3Instance fuel from method args st)
  = match Web3Service.encodeMethod web3Instance method args with
    | Throw e => Raise e
    | Ok data =>
        match eth_estimateGas web3Instance (tick st)
                {| from := from; to := ContractMethod.address method;
                   data := data; gas := None |} with
        | Throw e => Raise e
        | Ok _ => Pending
        end
    end.
Proof.
  unfold Web3Service.transaction.
  destruct (Web3Service.encodeMethod web3Instance method args) as [data|e];
    [|reflexivity].
  run.
  destruct (eth_estimateGas web3Instance (tick st) _) as [gas|e]; [|reflexivity].
  rewrite steps_spin by reflexivity. reflexivity.
Qed.

End Transaction.

(** ** The decoder is a left inverse of the payload layout *)

Lemma append_assoc (a b c : string) : ((a ++ b) ++ c = a ++ (b ++ c))%string.
Proof. induction a as [|x a IH]; simpl; [reflexivity | now rewrite IH]. Qed.

Lemma append_nil_r (a : string) : (a ++ "")%string = a.
Proof. induction a as [|x a IH]; simpl; [reflexivity | now rewrite IH]. Qed.

Lemma strip0_zeros (k : nat) : strip0 (zeros k) = EmptyString.
Proof. induction k as [|k IH]; simpl; [reflexivity | now rewrite IH]. Qed.

Lemma strip0_app_zeros (s : string) (k : nat) : strip0 (s ++ zeros k) = strip0 s.
Proof.
  induction s as [|c s IH]; simpl; [apply strip0_zeros | now rewrite IH].
Qed.

Lemma strip0_app (s t : string) :
  strip0 t <> EmptyString -> strip0 (s ++ t) = (s ++ strip0 t)%string.
Proof.
  intros Ht. induction s as [|c s IH]; simpl; [reflexivity|].
  rewrite IH. destruct (s ++ strip0 t)%string eqn:E; [|reflexivity].
  destruct s; simpl in E; [now elim Ht | discriminate].
Qed.

Lemma eat_star_zeros (k : nat) (bol : bool) :
  JS.eat_star zeroClass atEnd bol (zeros k) = Some EmptyString.
Proof.
  revert bol. induction k as [|k IH]; intros bol; [reflexivity|].
  cbn [zeros JS.eat_star].
  replace (JS.in_class zeroClass "0") with true by reflexivity.
  now rewrite IH.
Qed.

Lemma eat_star_stuck (s : string) (bol : bool) :
  strip0 s <> EmptyString -> JS.eat_star zeroClass atEnd bol s = None.
Proof.
  revert bol. induction s as [|c s IH]; intros bol Hs; [now elim Hs|].
  cbn [JS.eat_star]. simpl in Hs.
  destruct (JS.in_class zeroClass c) eqn:Hc; [|reflexivity].
  apply in_class_lit in Hc. subst c.
  destruct (strip0 s) eqn:E.
  - now elim Hs.
  - rewrite IH by discriminate. reflexivity.
Qed.

Lemma match_here_trailingZeros (s : string) (bol : bool) :
  JS.match_here Web3Service.trailingZeros bol s
  = match s with
    | String c s' =>
        if JS.in_class zeroClass c then JS.eat_star zeroClass atEnd false s' else None
    | EmptyString => None
    end.
Proof. destruct s; reflexivity. Qed.

(** What the pattern /0+$/ finds in [s]: nothing, or the trailing zeros
    after [strip0 s]. *)
Lemma exec_at_trailingZeros (s : string) (bol : bool) :
  JS.exec_at Web3Service.trailingZeros bol s
  = if (strip0 s =? s)%string then None else Some (strip0 s, EmptyString).
Proof.
  revert bol. induction s as [|c s IH]; intros bol; [reflexivity|].
  cbn [JS.exec_at]. rewrite match_here_trailingZeros.
  cbn [strip0].
  destruct (strip0 s) as [|d t] eqn:E.
  - (* the rest is all zeros *)
    assert (Hz : exists k, s = zeros k).
    { clear IH. revert E. induction s as [|x s IHs]; intros E.
      - exists 0%nat. reflexivity.
      - simpl in E. destruct (strip0 s) eqn:E'; [|discriminate].
        destruct (Ascii.eqb_spec x "0") as [->|Hx]; [|discriminate].
        destruct (IHs eq_refl) as [k ->]. exists (S k). reflexivity. }
    destruct Hz as [k ->].
    destruct (Ascii.eqb_spec c "0") as [->|Hc].
    + replace (JS.in_class zeroClass "0") with true by reflexivity.
      rewrite eat_star_zeros. reflexivity.
    + assert (Hcls : JS.in_class zeroClass c = false).
      { destruct (JS.in_class zeroClass c) eqn:H; [|reflexivity].
        apply in_class_lit in H. contradiction. }
      rewrite Hcls, IH.
      destruct k; simpl.
      * now rewrite Ascii.eqb_refl.
      * rewrite Ascii.eqb_refl. reflexivity.
  - assert (Hstuck : (if JS.in_class zeroClass c
                      then JS.eat_star zeroClass atEnd false s else None) = None).
    { destruct (JS.in_class zeroClass c); [|reflexivity].
      apply eat_star_stuck. rewrite E. discriminate. }
    rewrite Hstuck, IH.
    destruct (String.eqb_spec (String d t) s) as [<-|Hne].
    + now rewrite String.eqb_refl.
    + replace (String c (String d t) =? String c s)%string with false; [reflexivity|].
      symmetry. apply String.eqb_neq. congruence.
Qed.

Lemma replace_trailingZeros (s : string) :
  JS.replace s Web3Service.trailingZeros "" = strip0 s.
Proof.
  unfold JS.replace. rewrite exec_at_trailingZeros.
  destruct (String.eqb_spec (strip0 s) s) as [E|_].
  - now rewrite E.
  - cbn [append]. apply append_nil_r.
Qed.

Lemma strip0_0x (s : string) : strip0 ("0x" ++ s) = ("0x" ++ strip0 s)%string.
Proof.
  change ("0x" ++ s)%string with (String "0" (String "x" s)).
  cbn [strip0]. destruct (strip0 s); reflexivity.
Qed.

(** *** Hex *)

Lemma hex_app (a b : list Z) :
  Payload.hex (a ++ b) = (Payload.hex a ++ Payload.hex b)%string.
Proof.
  induction a as [|x a IH]; simpl; [reflexivity|].
  rewrite IH. reflexivity.
Qed.

Lemma length_hex (l : list Z) : String.length (Payload.hex l) = (2 * List.length l)%nat.
Proof.
  induction l as [|x l IH]; simpl; [reflexivity|]. rewrite IH. lia.
Qed.

Lemma hex_repeat_0 (k : nat) : Payload.hex (repeat 0 k) = zeros (2 * k).
Proof.
  induction k as [|k IH]; [reflexivity|].
  replace (2 * S k)%nat with (S (S (2 * k))) by lia.
  cbn [repeat Payload.hex zeros]. rewrite IH. reflexivity.
Qed.

Lemma length_bigEndian (width : nat) (n : Z) :
  List.length (Payload.bigEndian width n) = width.
Proof.
  revert n. induction width as [|w IH]; intros n; simpl; [reflexivity|].
  rewrite length_app, IH. simpl. lia.
Qed.

Lemma drop_app (a b : string) : JS.drop (String.length a) (a ++ b) = b.
Proof. induction a as [|x a IH]; simpl; [now destruct b | exact IH]. Qed.

Lemma in_allBytes (b : Z) : 0 <= b < 256 -> In b allBytes.
Proof.
  intros Hb. unfold allBytes. rewrite <- (Z2Nat.id b) by lia.
  apply in_map, in_seq. lia.
Qed.

Lemma parseInt16_hexByte (b : Z) :
  0 <= b < 256 -> JS.parseInt16 (Payload.hexByte b) = JS.Int b.
Proof.
  intros Hb.
  assert (H : forallb (fun b => match JS.parseInt16 (Payload.hexByte b) with
                                | JS.Int v => v =? b
                                | JS.NaN => false
                                end) allBytes = true)
    by (vm_compute; reflexivity).
  rewrite forallb_forall in H. specialize (H b (in_allBytes b Hb)).
  destruct (JS.parseInt16 (Payload.hexByte b)); [|discriminate].
  apply Z.eqb_eq in H. now subst.
Qed.

Lemma hexPairs_hex (bytes : list Z) :
  Forall (fun b => 0 <= b < 256) bytes ->
  Ethers.hexPairs (Payload.hex bytes) = bytes.
Proof.
  induction 1 as [|b l Hb Hl IH]; [reflexivity|].
  cbn [Payload.hex].
  change (Payload.hexByte b ++ Payload.hex l)%string
    with (String (Payload.hexDigit (b / 16))
            (String (Payload.hexDigit (b mod 16)) (Payload.hex l))).
  cbn [Ethers.hexPairs].
  change (String (Payload.hexDigit (b / 16)) (String (Payload.hexDigit (b mod 16)) ""))
    with (Payload.hexByte b).
  rewrite parseInt16_hexByte by assumption. cbn [JS.ToInteger]. now rewrite IH.
Qed.

Lemma hexDigit_in_class (b : Z) :
  0 <= b < 256 ->
  JS.in_class [("0", "9"); ("A", "F"); ("a", "f")]%char (Payload.hexDigit (b / 16)) = true
  /\ JS.in_class [("0", "9"); ("A", "F"); ("a", "f")]%char (Payload.hexDigit (b mod 16)) = true.
Proof.
  intros Hb.
  assert (H : forallb (fun b =>
                JS.in_class [("0", "9"); ("A", "F"); ("a", "f")]%char (Payload.hexDigit (b / 16))
                && JS.in_class [("0", "9"); ("A", "F"); ("a", "f")]%char (Payload.hexDigit (b mod 16)))
                allBytes = true)
    by (vm_compute; reflexivity).
  rewrite forallb_forall in H. specialize (H b (in_allBytes b Hb)).
  now apply andb_true_iff in H.
Qed.

Lemma eat_star_hex (bytes : list Z) (bol : bool) :
  Forall (fun b => 0 <= b < 256) bytes ->
  JS.eat_star [("0", "9"); ("A", "F"); ("a", "f")]%char atEnd bol (Payload.hex bytes)
  = Some EmptyString.
Proof.
  intros H. revert bol. induction H as [|b l Hb Hl IH]; intros bol; [reflexivity|].
  cbn [Payload.hex].
  change (Payload.hexByte b ++ Payload.hex l)%string
    with (String (Payload.hexDigit (b / 16))
            (String (Payload.hexDigit (b mod 16)) (Payload.hex l))).
  destruct (hexDigit_in_class b Hb) as [H1 H2].
  cbn [JS.eat_star]. rewrite H1, H2, IH. reflexivity.
Qed.

Lemma isHexString_hex (bytes : list Z) :
  Forall (fun b => 0 <= b < 256) bytes ->
  Ethers.isHexString ("0x" ++ Payload.hex bytes) = true.
Proof.
  intros H. unfold Ethers.isHexString, Ethers.hexStringRegex.
  apply test_Bol.
  change ("0x" ++ Payload.hex bytes)%string
    with (String "0" (String "x" (Payload.hex bytes))).
  rewrite match_here_lit. cbv beta iota.
  replace (JS.in_class [("0", "0")]%char "0") with true by reflexivity.
  rewrite match_here_lit. cbv beta iota.
  replace (JS.in_class [("x", "x")]%char "x") with true by reflexivity.
  change (JS.match_here [JS.Atom ?cls JS.Star; JS.Eol] false ?s)
    with (JS.eat_star cls atEnd false s).
  rewrite eat_star_hex by assumption. discriminate.
Qed.

Lemma arrayify_hex (bytes : list Z) :
  Forall (fun b => 0 <= b < 256) bytes ->
  Ethers.arrayify ("0x" ++ Payload.hex bytes) = Ok bytes.
Proof.
  intros H. unfold Ethers.arrayify. rewrite isHexString_hex by assumption.
  change (JS.drop 2 ("0x" ++ Payload.hex bytes)) with (Payload.hex bytes).
  unfold JS.len. rewrite length_hex.
  replace (Z.of_nat (2 * List.length bytes) mod 2 =? 0) with true.
  - now rewrite hexPairs_hex.
  - symmetry. apply Z.eqb_eq. rewrite Nat2Z.inj_mul, Z.mul_comm. apply Z.mod_mul. lia.
Qed.

(** *** UTF-8 of ASCII *)

Lemma continuation_length (n : nat) :
  forall res bytes res' rest,
    Ethers.continuation n res bytes = Some (res', rest) ->
    (List.length rest + n = List.length bytes)%nat.
Proof.
  induction n as [|n IH]; intros res bytes res' rest H; cbn [Ethers.continuation] in H.
  - injection H as _ <-. lia.
  - destruct bytes as [|b bytes]; [discriminate|].
    destruct (Z.land b 0xc0 =? 0x80); [|discriminate].
    apply IH in H. simpl. lia.
Qed.

(** The fuel of the decoding loop is enough: more of it changes nothing. *)
Lemma codePoints_fuel (fuel : nat) :
  forall bytes fuel',
    (List.length bytes <= fuel)%nat -> (List.length bytes <= fuel')%nat ->
    Ethers.codePoints fuel bytes = Ethers.codePoints fuel' bytes.
Proof.
  induction fuel as [|fuel IH]; intros bytes fuel' H H'.
  - destruct bytes; [|simpl in H; lia]. destruct fuel'; reflexivity.
  - destruct bytes as [|c rest]; [destruct fuel'; reflexivity|].
    destruct fuel' as [|fuel']; [simpl in H'; lia|].
    simpl in H, H'. cbn [Ethers.codePoints].
    destruct (Z.shiftr c 7 =? 0).
    + rewrite (IH rest fuel') by lia. reflexivity.
    + destruct (Ethers.leadByte c) as [[extraLength overlongMask]|e]; [|reflexivity].
      cbn [rbind].
      destruct (List.length rest <? extraLength)%nat; [reflexivity|].
      destruct (Ethers.continuation extraLength _ rest) as [[res rest']|] eqn:Hc;
        [|reflexivity].
      apply continuation_length in Hc.
      rewrite (IH rest' fuel') by lia. reflexivity.
Qed.

Lemma codePoints_ascii (bytes : list Z) (extra : nat) :
  Forall (fun b => 0 <= b < 128) bytes ->
  Ethers.codePoints (List.length bytes + extra) bytes = Ok bytes.
Proof.
  induction 1 as [|b l Hb Hl IH]; [destruct extra; reflexivity|].
  cbn [List.length Nat.add Ethers.codePoints].
  replace (Z.shiftr b 7 =? 0) with true.
  - rewrite IH. reflexivity.
  - symmetry. apply Z.eqb_eq. rewrite Z.shiftr_div_pow2 by lia.
    apply Z.div_small. simpl. lia.
Qed.

Lemma flat_map_fromCodePoint_ascii (bytes : list Z) :
  Forall (fun b => 0 <= b < 128) bytes ->
  flat_map Ethers.fromCodePoint bytes = bytes.
Proof.
  induction 1 as [|b l Hb Hl IH]; [reflexivity|].
  cbn [flat_map]. rewrite IH. unfold Ethers.fromCodePoint.
  replace (b <=? 0xffff) with true by (symmetry; apply Z.leb_le; lia).
  reflexivity.
Qed.

Lemma toUtf8String_hex_ascii (bytes : list Z) :
  Forall (fun b => 0 <= b < 128) bytes ->
  Ethers.toUtf8String ("0x" ++ Payload.hex bytes) = Ok bytes.
Proof.
  intros H. unfold Ethers.toUtf8String.
  rewrite arrayify_hex by (eapply Forall_impl; [|exact H]; simpl; lia).
  cbn [rbind]. unfold Ethers.getUtf8CodePoints.
  rewrite <- (Nat.add_0_r (List.length bytes)).
  rewrite codePoints_ascii by assumption.
  cbn [rbind]. now rewrite flat_map_fromCodePoint_ascii.
Qed.

Lemma code_range (c : ascii) : 0 <= JS.code c < 256.
Proof.
  unfold JS.code. pose proof (nat_ascii_bounded c). lia.
Qed.

Lemma utf8_range (message : string) :
  Forall (fun b => 0 <= b < 256) (Payload.utf8 message).
Proof.
  unfold Payload.utf8. apply Forall_forall. intros b Hin.
  apply in_map_iff in Hin. destruct Hin as [c [<- _]]. apply code_range.
Qed.

Lemma strip0_hexByte (b : Z) :
  0 <= b < 256 -> b <> 0 ->
  strip0 (Payload.hexByte b) <> EmptyString
  /\ Web3Service.padded (strip0 (Payload.hexByte b)) = Payload.hexByte b.
Proof.
  intros Hb Hnz.
  assert (H : forallb (fun b =>
                (b =? 0)
                || (negb (strip0 (Payload.hexByte b) =? "")%string
                    && (Web3Service.padded (strip0 (Payload.hexByte b))
                        =? Payload.hexByte b)%string))
                allBytes = true)
    by (vm_compute; reflexivity).
  rewrite forallb_forall in H. specialize (H b (in_allBytes b Hb)).
  apply orb_true_iff in H. destruct H as [H|H].
  - apply Z.eqb_eq in H. contradiction.
  - apply andb_true_iff in H. destruct H as [H1 H2].
    apply negb_true_iff, String.eqb_neq in H1. apply String.eqb_eq in H2.
    split; assumption.
Qed.

Lemma padded_after_even (a t : string) :
  JS.len a mod 2 = 0 ->
  Web3Service.padded (a ++ t) = (a ++ Web3Service.padded t)%string.
Proof.
  intros Ha. unfold Web3Service.padded. rewrite len_append.
  rewrite Z.add_mod, Ha by lia. cbn [Z.add].
  rewrite Z.mod_mod by lia.
  destruct (JS.len t mod 2 =? 1); [apply append_assoc | reflexivity].
Qed.

(** Stripping the zeros and padding an odd length gives the hex of the
    bytes back, unless the last byte is 0. *)
Lemma padded_strip0_hex (bytes : list Z) :
  Forall (fun b => 0 <= b < 256) bytes ->
  last bytes 1 <> 0 ->
  Web3Service.padded ("0x" ++ strip0 (Payload.hex bytes))
  = ("0x" ++ Payload.hex bytes)%string.
Proof.
  intros Hrange Hlast.
  destruct bytes as [|b0 l0]; [reflexivity|].
  remember (b0 :: l0) as bytes eqn:E.
  assert (Hne : bytes <> []) by (rewrite E; discriminate).
  clear E b0 l0.
  rewrite (app_removelast_last 1 Hne) in Hrange |- *.
  apply Forall_app in Hrange. destruct Hrange as [Hinit Hb].
  apply Forall_inv in Hb. rename Hb into Hb'.
  set (l := removelast bytes) in *. set (b := last bytes 1) in *.
  destruct (strip0_hexByte b Hb' Hlast) as [Hnonempty Hpad].
  rewrite hex_app. cbn [Payload.hex]. rewrite append_nil_r.
  rewrite strip0_app by assumption.
  rewrite <- append_assoc.
  rewrite padded_after_even.
  - rewrite Hpad. apply append_assoc.
  - rewrite len_append. unfold JS.len at 2. rewrite length_hex.
    change (JS.len "0x") with 2.
    replace (2 + Z.of_nat (2 * List.length l)) with ((1 + Z.of_nat (List.length l)) * 2) by lia.
    apply Z.mod_mul. lia.
Qed.

Lemma substr_encode (message : string) :
  JS.substr (Payload.encode message) (JS.Int 138)
  = Payload.hex (Payload.rightPad (Payload.utf8 message)).
Proof.
  unfold Payload.encode.
  rewrite !hex_app, <- !append_assoc.
  set (header := ((("0x" ++ Payload.hex Payload.selector)
                   ++ Payload.hex (Payload.word 32))
                  ++ Payload.hex (Payload.word
                                    (Z.of_nat (List.length (Payload.utf8 message)))))%string).
  assert (Hlen : String.length header = 138%nat).
  { subst header. rewrite !length_append, !length_hex.
    unfold Payload.word. rewrite !length_bigEndian. reflexivity. }
  unfold JS.substr, JS.relative, JS.ToInteger, JS.len.
  rewrite length_append, Hlen.
  replace (138 <? 0) with false by reflexivity.
  rewrite Z.min_l by lia.
  change (Z.to_nat 138) with 138%nat. rewrite <- Hlen. apply drop_app.
Qed.

(** X1. Outside kovan, every ASCII text that does not end with the NUL
    character is decoded from its payload. *)
Theorem decodeMessage_encode (message network : string) :
  network <> "kovan" ->
  isAscii message ->
  ~ endsWithNul message ->
  Web3Service.decodeMessage (Payload.encode message) network = Ok (utf16 message).
Proof.
  intros Hnet Hascii Hnul.
  unfold Web3Service.decodeMessage, Web3Service.strippedHeader.
  apply String.eqb_neq in Hnet. rewrite Hnet.
  rewrite substr_encode, replace_trailingZeros, strip0_0x.
  unfold Payload.rightPad. rewrite hex_app, hex_repeat_0, strip0_app_zeros.
  rewrite padded_strip0_hex; [|apply utf8_range|exact Hnul].
  apply toUtf8String_hex_ascii.
  unfold isAscii in Hascii.
  pose proof (utf8_range message) as Hrange.
  rewrite Forall_forall in *. intros b Hin.
  specialize (Hascii b Hin). specialize (Hrange b Hin). lia.
Qed.

Lemma decodeMessage_encode_insufficient :
  Web3Service.decodeMessage (Payload.encode "Insufficient balance") "ropsten"
  = Ok (utf16 "Insufficient balance").
Proof.
  apply (decodeMessage_encode "Insufficient balance" "ropsten").
  - discriminate.
  - unfold isAscii. vm_compute. repeat constructor.
  - unfold endsWithNul. vm_compute. discriminate.
Defined.

(** *** The kovan layout *)

Lemma hexval_hexDigit (b : Z) :
  0 <= b < 256 ->
  JS.hexval (Payload.hexDigit (b / 16)) = Some (b / 16)
  /\ JS.hexval (Payload.hexDigit (b mod 16)) = Some (b mod 16).
Proof.
  intros Hb.
  assert (H : forallb (fun b =>
                match JS.hexval (Payload.hexDigit (b / 16)),
                      JS.hexval (Payload.hexDigit (b mod 16)) with
                | Some h, Some l => (h =? b / 16) && (l =? b mod 16)
                | _, _ => false
                end) allBytes = true)
    by (vm_compute; reflexivity).
  rewrite forallb_forall in H. specialize (H b (in_allBytes b Hb)).
  destruct (JS.hexval (Payload.hexDigit (b / 16))) as [h|]; [|discriminate].
  destruct (JS.hexval (Payload.hexDigit (b mod 16))) as [l|]; [|discriminate].
  apply andb_true_iff in H. destruct H as [H1 H2].
  apply Z.eqb_eq in H1, H2. now subst.
Qed.

Lemma digits16_hex (bytes : list Z) :
  Forall (fun b => 0 <= b < 256) bytes ->
  forall acc, JS.digits16 (Some acc) (Payload.hex bytes) = Some (beValue acc bytes).
Proof.
  induction 1 as [|b l Hb Hl IH]; intros acc; [reflexivity|].
  cbn [Payload.hex].
  change (Payload.hexByte b ++ Payload.hex l)%string
    with (String (Payload.hexDigit (b / 16))
            (String (Payload.hexDigit (b mod 16)) (Payload.hex l))).
  destruct (hexval_hexDigit b Hb) as [H1 H2].
  cbn [JS.digits16]. rewrite H1, H2, IH. cbn [beValue fold_left].
  replace (16 * (16 * acc + b / 16) + b mod 16) with (256 * acc + b)
    by (pose proof (Z.div_mod b 16 ltac:(lia)); lia).
  reflexivity.
Qed.

Lemma beValue_bigEndian (width : nat) :
  forall n, 0 <= n < 256 ^ Z.of_nat width ->
            beValue 0 (Payload.bigEndian width n) = n.
Proof.
  induction width as [|w IH]; intros n Hn.
  - simpl in *. lia.
  - cbn [Payload.bigEndian]. unfold beValue in *. rewrite fold_left_app.
    cbn [fold_left]. rewrite IH.
    + pose proof (Z.div_mod n 256 ltac:(lia)). lia.
    + rewrite Nat2Z.inj_succ, Z.pow_succ_r in Hn by lia.
      split; [apply Z.div_pos; lia|].
      apply Z.div_lt_upper_bound; lia.
Qed.

Lemma bigEndian_range (width : nat) :
  forall n, Forall (fun b => 0 <= b < 256) (Payload.bigEndian width n).
Proof.
  induction width as [|w IH]; intros n; cbn [Payload.bigEndian]; [constructor|].
  apply Forall_app. split; [apply IH|].
  constructor; [|constructor]. apply Z.mod_pos_bound. lia.
Qed.

Lemma digits16_None_hex (bytes : list Z) :
  bytes <> [] ->
  Forall (fun b => 0 <= b < 256) bytes ->
  JS.digits16 None (Payload.hex bytes) = JS.digits16 (Some 0) (Payload.hex bytes).
Proof.
  intros Hne Hrange. destruct bytes as [|b l]; [now elim Hne|].
  apply Forall_inv in Hrange.
  cbn [Payload.hex].
  change (Payload.hexByte b ++ Payload.hex l)%string
    with (String (Payload.hexDigit (b / 16))
            (String (Payload.hexDigit (b mod 16)) (Payload.hex l))).
  cbn [JS.digits16].
  destruct (hexval_hexDigit b Hrange) as [-> _]. reflexivity.
Qed.

Lemma parseInt16_word (n : Z) :
  0 <= n < 256 ^ 32 ->
  JS.parseInt16 ("0x" ++ Payload.hex (Payload.word n)) = JS.Int n.
Proof.
  intros Hn.
  change (JS.parseInt16 ("0x" ++ Payload.hex (Payload.word n)))
    with (match JS.digits16 None (Payload.hex (Payload.word n)) with
          | Some v => JS.Int (1 * v)
          | None => JS.NaN
          end).
  rewrite digits16_None_hex.
  - rewrite digits16_hex by apply bigEndian_range.
    unfold Payload.word. rewrite beValue_bigEndian by exact Hn.
    f_equal. lia.
  - intros E. apply (f_equal (@List.length Z)) in E.
    unfold Payload.word in E. rewrite length_bigEndian in E. discriminate.
  - apply bigEndian_range.
Qed.

Lemma take_app (a b : string) : JS.take (String.length a) (a ++ b) = a.
Proof. induction a as [|x a IH]; simpl; [now destruct b | now rewrite IH]. Qed.

Lemma slice_Int (s : string) (a b : Z) :
  0 <= a <= b -> b <= JS.len s ->
  JS.slice s (JS.Int a) (JS.Int b) = JS.take (Z.to_nat (b - a)) (JS.drop (Z.to_nat a) s).
Proof.
  intros Hab Hb. unfold JS.slice, JS.relative, JS.ToInteger.
  destruct (Z.ltb_spec a 0); [lia|]. destruct (Z.ltb_spec b 0); [lia|].
  rewrite !Z.min_l by lia. rewrite Z.max_l by lia. reflexivity.
Qed.

(** The payload, cut at the boundaries of its fields. *)
Lemma encode_fields (message : string) :
  exists selectorAndOffset,
    String.length selectorAndOffset = 74%nat
    /\ Payload.encode message
       = (selectorAndOffset
          ++ Payload.hex (Payload.word (Z.of_nat (List.length (Payload.utf8 message))))
          ++ Payload.hex (Payload.utf8 message)
          ++ zeros (2 * ((32 - List.length (Payload.utf8 message) mod 32) mod 32)))%string.
Proof.
  exists ("0x" ++ Payload.hex Payload.selector ++ Payload.hex (Payload.word 32))%string.
  split.
  - rewrite !length_append, !length_hex. unfold Payload.word.
    rewrite length_bigEndian. reflexivity.
  - unfold Payload.encode, Payload.rightPad.
    rewrite !hex_app, hex_repeat_0, <- !append_assoc. reflexivity.
Qed.

Lemma take_all (n : nat) (s : string) :
  (String.length s <= n)%nat -> JS.take n s = s.
Proof.
  revert s. induction n as [|n IH]; intros [|c s] H; simpl in *; try reflexivity.
  - lia.
  - rewrite IH by lia. reflexivity.
Qed.

Lemma slice_from_drop (s : string) (a : Z) :
  0 <= a <= JS.len s -> JS.slice_from s (JS.Int a) = JS.drop (Z.to_nat a) s.
Proof.
  intros Ha. unfold JS.slice_from. rewrite slice_Int by lia.
  apply take_all. rewrite length_drop. unfold JS.len in *. lia.
Qed.

(** X2. On kovan, every ASCII text is decoded from its payload, through
    the length field. *)
Theorem decodeMessage_encode_kovan (message : string) :
  isAscii message ->
  Z.of_nat (List.length (Payload.utf8 message)) < 256 ^ 32 ->
  Web3Service.decodeMessage (Payload.encode message) "kovan" = Ok (utf16 message).
Proof.
  intros Hascii Hlen.
  destruct (encode_fields message) as [pre [Hpre Henc]].
  set (bytes := Payload.utf8 message) in *.
  set (n := Z.of_nat (List.length bytes)) in *.
  set (padding := zeros (2 * ((32 - List.length bytes mod 32) mod 32))) in *.
  set (code := Payload.encode message) in *.
  assert (Hword : String.length (Payload.hex (Payload.word n)) = 64%nat).
  { rewrite length_hex. unfold Payload.word. now rewrite length_bigEndian. }
  assert (Htotal : JS.len code = 138 + n * 2 + JS.len padding).
  { rewrite Henc. unfold JS.len. rewrite !length_append, Hpre, Hword, length_hex.
    subst n. lia. }
  assert (Hpad : 0 <= JS.len padding) by (unfold JS.len; lia).
  assert (Hn : 0 <= n) by (subst n; lia).
  assert (Hfield : lengthField code = JS.Int n).
  { unfold lengthField. rewrite slice_from_drop by lia.
    change (Z.to_nat 74) with 74%nat.
    rewrite Henc. rewrite <- Hpre, drop_app.
    rewrite slice_Int.
    - change (Z.to_nat 0) with 0%nat. cbn [JS.drop].
      change (Z.to_nat (64 - 0)) with 64%nat.
      rewrite <- Hword, take_app.
      apply parseInt16_word. lia.
    - lia.
    - unfold JS.len. rewrite length_append, Hword. lia. }
  assert (Hspan : Web3Service.strippedHeader code "kovan"
                  = inr ("0x" ++ JS.slice code (JS.Int 138)
                           (JS.add (JS.Int 138) (JS.mul (lengthField code) (JS.Int 2)))))
    by reflexivity.
  unfold Web3Service.decodeMessage. rewrite Hspan, Hfield. cbn [JS.mul JS.add].
  rewrite slice_Int by lia.
  change (Z.to_nat 138) with 138%nat.
  replace (Z.to_nat (138 + n * 2 - 138)) with (String.length (Payload.hex bytes))
    by (rewrite length_hex; subst n; lia).
  rewrite Henc. rewrite <- (append_assoc pre).
  replace 138%nat with (String.length (pre ++ Payload.hex (Payload.word n))%string)
    by (rewrite length_append, Hpre, Hword; reflexivity).
  rewrite drop_app, take_app.
  unfold Web3Service.padded.
  replace (JS.len ("0x" ++ Payload.hex bytes) mod 2 =? 1) with false.
  - apply toUtf8String_hex_ascii.
    pose proof (utf8_range message) as Hrange. fold bytes in Hrange.
    unfold isAscii in Hascii. fold bytes in Hascii.
    rewrite Forall_forall in *. intros b Hin.
    specialize (Hascii b Hin). specialize (Hrange b Hin). lia.
  - symmetry. apply Z.eqb_neq. rewrite len_append. unfold JS.len at 2.
    rewrite length_hex. change (JS.len "0x") with 2.
    replace (2 + Z.of_nat (2 * List.length bytes))
      with ((1 + Z.of_nat (List.length bytes)) * 2) by lia.
    rewrite Z.mod_mul by lia. discriminate.
Qed.

Lemma decodeMessage_encode_kovan_insufficient :
  Web3Service.decodeMessage (Payload.encode "Insufficient balance") "kovan"
  = Ok (utf16 "Insufficient balance").
Proof.
  apply (decodeMessage_encode_kovan "Insufficient balance").
  - unfold isAscii. vm_compute. repeat constructor.
  - vm_compute. reflexivity.
Defined.

(** * Further properties *)

(** ** decodeMessage at its edges *)

Lemma trimZeros_split (bytes : list Z) :
  exists k, bytes = (trimZeros bytes ++ repeat 0 k)%list.
Proof.
  induction bytes as [|b l [k IH]]; [exists 0%nat; reflexivity|].
  cbn [trimZeros]. destruct (trimZeros l) as [|t0 t] eqn:E.
  - destruct (Z.eqb_spec b 0) as [->|Hb].
    + exists (S k). simpl in *. now rewrite IH.
    + exists k. simpl in *. now rewrite IH.
  - exists k. simpl. now rewrite IH at 1.
Qed.

Lemma trimZeros_last (bytes : list Z) : last (trimZeros bytes) 1 <> 0.
Proof.
  induction bytes as [|b l IH]; [discriminate|].
  cbn [trimZeros]. destruct (trimZeros l) as [|t0 t] eqn:E.
  - destruct (Z.eqb_spec b 0) as [->|Hb]; [discriminate | exact Hb].
  - exact IH.
Qed.

Lemma trimZeros_Forall (P : Z -> Prop) (bytes : list Z) :
  Forall P bytes -> Forall P (trimZeros bytes).
Proof.
  induction 1 as [|b l Hb Hl IH]; [constructor|].
  cbn [trimZeros]. destruct (trimZeros l) as [|t0 t] eqn:E.
  - destruct (b =? 0); [constructor | now constructor].
  - now constructor.
Qed.

(** The non-kovan layout on the hex of ASCII bytes followed by zeros:
    what is decoded are the bytes without their trailing zero bytes. *)
Lemma decode_stripped_hex (code network : string) (bytes : list Z) (k : nat) :
  network <> "kovan" ->
  JS.substr code (JS.Int 138) = (Payload.hex bytes ++ zeros k)%string ->
  Forall (fun b => 0 <= b < 128) bytes ->
  Web3Service.decodeMessage code network = Ok (trimZeros bytes).
Proof.
  intros Hnet Hdata Hascii.
  unfold Web3Service.decodeMessage, Web3Service.strippedHeader.
  apply String.eqb_neq in Hnet. rewrite Hnet, Hdata.
  rewrite replace_trailingZeros, strip0_0x, strip0_app_zeros.
  destruct (trimZeros_split bytes) as [j Hsplit].
  rewrite Hsplit at 1. rewrite hex_app, hex_repeat_0, strip0_app_zeros.
  rewrite padded_strip0_hex.
  - apply toUtf8String_hex_ascii. now apply trimZeros_Forall.
  - apply trimZeros_Forall. eapply Forall_impl; [|exact Hascii]. simpl. lia.
  - apply trimZeros_last.
Qed.

Lemma utf8_ascii (message : string) :
  isAscii message -> Forall (fun b => 0 <= b < 128) (Payload.utf8 message).
Proof.
  intros Hascii. unfold isAscii in Hascii.
  pose proof (utf8_range message) as Hrange.
  rewrite Forall_forall in *. intros b Hin.
  specialize (Hascii b Hin). specialize (Hrange b Hin). lia.
Qed.

(** X6. Outside kovan, the payload of an ASCII text is decoded to the text
    without its trailing NUL characters: the stripping of zeros cannot
    tell them from the padding. *)
Theorem decodeMessage_encode_drops_nul (message network : string) :
  network <> "kovan" ->
  isAscii message ->
  Web3Service.decodeMessage (Payload.encode message) network
  = Ok (trimZeros (utf16 message)).
Proof.
  intros Hnet Hascii.
  apply (decode_stripped_hex _ _ _
           (2 * ((32 - List.length (Payload.utf8 message) mod 32) mod 32)) Hnet).
  - rewrite substr_encode. unfold Payload.rightPad.
    now rewrite hex_app, hex_repeat_0.
  - now apply utf8_ascii.
Qed.

Lemma drop_all (n : nat) (s : string) :
  (String.length s <= n)%nat -> JS.drop n s = EmptyString.
Proof.
  revert s. induction n as [|n IH]; intros [|c s] H; simpl in *; try reflexivity.
  - lia.
  - apply IH. lia.
Qed.

Lemma relative_le (size i : Z) : 0 <= size -> 0 <= JS.relative size i <= size.
Proof. intros H. unfold JS.relative. destruct (Z.ltb_spec i 0); lia. Qed.

Lemma slice_past_end (s : string) (a : Z) (b : JS.number) :
  JS.len s <= a -> JS.slice s (JS.Int a) b = EmptyString.
Proof.
  intros Ha. unfold JS.slice.
  assert (Hlen : 0 <= JS.len s) by (unfold JS.len; lia).
  pose proof (relative_le (JS.len s) (JS.ToInteger b) Hlen) as Hto.
  assert (Hfrom : JS.relative (JS.len s) (JS.ToInteger (JS.Int a)) = JS.len s).
  { unfold JS.relative, JS.ToInteger. destruct (Z.ltb_spec a 0); lia. }
  rewrite Hfrom. rewrite Z.max_r by lia. reflexivity.
Qed.

(** X7. A payload that ends with its header, of at most 138 characters, is
    decoded to the empty text on every network: a revert without a reason
    gives "" and no error. *)
Theorem decodeMessage_no_data (code network : string) :
  JS.len code <= 138 ->
  Web3Service.decodeMessage code network = Ok [].
Proof.
  intros Hlen. unfold Web3Service.decodeMessage, Web3Service.strippedHeader.
  destruct (network =? "kovan")%string.
  - cbn [Web3Service.is0x].
    change Web3Service.strDataStartPos with 138.
    rewrite slice_past_end by exact Hlen. reflexivity.
  - assert (E : JS.substr code (JS.Int 138) = EmptyString).
    { unfold JS.substr, JS.relative, JS.ToInteger.
      replace (138 <? 0) with false by reflexivity.
      rewrite Z.min_r by lia. unfold JS.len. rewrite Nat2Z.id.
      now apply drop_all. }
    rewrite E. reflexivity.
Qed.

Lemma decodeMessage_no_data_0x :
  Web3Service.decodeMessage "0x" "mainnet" = Ok []
  /\ Web3Service.decodeMessage "0x08c379a0" "kovan" = Ok [].
Proof.
  split.
  - apply (decodeMessage_no_data "0x" "mainnet"). vm_compute. discriminate.
  - apply (decodeMessage_no_data "0x08c379a0" "kovan"). vm_compute. discriminate.
Defined.

Lemma decodeMessage_encode_drops_nul_scenario :
  Web3Service.decodeMessage
    (Payload.encode (String "o" (String "k" (String zero (String zero EmptyString)))))
    "goerli"
  = Ok (utf16 "ok").
Proof.
  apply (decodeMessage_encode_drops_nul
           (String "o" (String "k" (String zero (String zero EmptyString)))) "goerli").
  - discriminate.
  - unfold isAscii. vm_compute. repeat constructor.
Defined.

(** The kovan layout on a payload cut at the boundaries of its fields:
    whatever follows the data is not read. *)
Lemma decode_kovan_span (code pre rest : string) (bytes : list Z) :
  String.length pre = 74%nat ->
  code = (pre ++ Payload.hex (Payload.word (Z.of_nat (List.length bytes)))
              ++ Payload.hex bytes ++ rest)%string ->
  Z.of_nat (List.length bytes) < 256 ^ 32 ->
  Forall (fun b => 0 <= b < 128) bytes ->
  Web3Service.decodeMessage code "kovan" = Ok bytes.
Proof.
  intros Hpre Henc Hlen Hascii.
  set (n := Z.of_nat (List.length bytes)) in *.
  assert (Hword : String.length (Payload.hex (Payload.word n)) = 64%nat).
  { rewrite length_hex. unfold Payload.word. now rewrite length_bigEndian. }
  assert (Htotal : JS.len code = 138 + n * 2 + JS.len rest).
  { rewrite Henc. unfold JS.len. rewrite !length_append, Hpre, Hword, length_hex.
    subst n. lia. }
  assert (Hrest : 0 <= JS.len rest) by (unfold JS.len; lia).
  assert (Hn : 0 <= n) by (subst n; lia).
  assert (Hfield : lengthField code = JS.Int n).
  { unfold lengthField. rewrite slice_from_drop by lia.
    change (Z.to_nat 74) with 74%nat.
    rewrite Henc. rewrite <- Hpre, drop_app.
    rewrite slice_Int.
    - change (Z.to_nat 0) with 0%nat. cbn [JS.drop].
      change (Z.to_nat (64 - 0)) with 64%nat.
      rewrite <- Hword, take_app.
      apply parseInt16_word. lia.
    - lia.
    - unfold JS.len. rewrite length_append, Hword. lia. }
  assert (Hspan : Web3Service.strippedHeader code "kovan"
                  = inr ("0x" ++ JS.slice code (JS.Int 138)
                           (JS.add (JS.Int 138) (JS.mul (lengthField code) (JS.Int 2)))))
    by reflexivity.
  unfold Web3Service.decodeMessage. rewrite Hspan, Hfield. cbn [JS.mul JS.add].
  rewrite slice_Int by lia.
  change (Z.to_nat 138) with 138%nat.
  replace (Z.to_nat (138 + n * 2 - 138)) with (String.length (Payload.hex bytes))
    by (rewrite length_hex; subst n; lia).
  rewrite Henc. rewrite <- (append_assoc pre).
  replace 138%nat with (String.length (pre ++ Payload.hex (Payload.word n))%string)
    by (rewrite length_append, Hpre, Hword; reflexivity).
  rewrite drop_app, take_app.
  unfold Web3Service.padded.
  replace (JS.len ("0x" ++ Payload.hex bytes) mod 2 =? 1) with false.
  - now apply toUtf8String_hex_ascii.
  - symmetry. apply Z.eqb_neq. rewrite len_append. unfold JS.len at 2.
    rewrite length_hex. change (JS.len "0x") with 2.
    replace (2 + Z.of_nat (2 * List.length bytes))
      with ((1 + Z.of_nat (List.length bytes)) * 2) by lia.
    rewrite Z.mod_mul by lia. discriminate.
Qed.

(** X8. On kovan the decoder reads the data by the length field alone: a
    payload made of 74 characters of selector and offset, the 32-byte
    length of ASCII data, and the data, is decoded to the data whatever
    follows it, padded or not. *)
Theorem decodeMessage_kovan_ignores_rest (pre rest : string) (bytes : list Z) :
  String.length pre = 74%nat ->
  Z.of_nat (List.length bytes) < 256 ^ 32 ->
  Forall (fun b => 0 <= b < 128) bytes ->
  Web3Service.decodeMessage
    (pre ++ Payload.hex (Payload.word (Z.of_nat (List.length bytes)))
         ++ Payload.hex bytes ++ rest) "kovan"
  = Ok bytes.
Proof.
  intros Hpre Hlen Hascii.
  now apply (decode_kovan_span _ pre rest bytes).
Qed.

Lemma decodeMessage_kovan_ignores_rest_scenario :
  Web3Service.decodeMessage
    ("0x08c379a00000000000000000000000000000000000000000000000000000000000000020"
     ++ Payload.hex (Payload.word (Z.of_nat (List.length (utf16 "no"))))
     ++ Payload.hex (utf16 "no") ++ "ffff not hex at all") "kovan"
  = Ok (utf16 "no").
Proof.
  apply (decodeMessage_kovan_ignores_rest
           "0x08c379a00000000000000000000000000000000000000000000000000000000000000020"
           "ffff not hex at all" (utf16 "no")).
  - reflexivity.
  - vm_compute. reflexivity.
  - vm_compute. repeat constructor; discriminate.
Defined.

(** X9. On kovan a length field that does not open with a hex digit is
    read as NaN, and the payload is decoded to the empty text. *)
Theorem decodeMessage_kovan_NaN (code : string) :
  lengthField code = JS.NaN ->
  Web3Service.decodeMessage code "kovan" = Ok [].
Proof.
  intros Hfield.
  assert (Hspan : Web3Service.strippedHeader code "kovan"
                  = inr ("0x" ++ JS.slice code (JS.Int 138)
                           (JS.add (JS.Int 138) (JS.mul (lengthField code) (JS.Int 2)))))
    by reflexivity.
  unfold Web3Service.decodeMessage. rewrite Hspan, Hfield. cbn [JS.mul JS.add].
  assert (E : JS.slice code (JS.Int 138) JS.NaN = EmptyString).
  { unfold JS.slice. cbn [JS.ToInteger].
    assert (Hlen : 0 <= JS.len code) by (unfold JS.len; lia).
    pose proof (relative_le (JS.len code) 138 Hlen).
    replace (JS.relative (JS.len code) 0) with 0
      by (unfold JS.relative; cbn; lia).
    rewrite Z.max_r by lia. reflexivity. }
  rewrite E. reflexivity.
Qed.

Lemma decodeMessage_kovan_NaN_scenario :
  Web3Service.decodeMessage
    ("0x08c379a00000000000000000000000000000000000000000000000000000000000000020"
     ++ "zz00000000000000000000000000000000000000000000000000000000000005"
     ++ "68656c6c6f") "kovan"
  = Ok [].
Proof.
  apply (decodeMessage_kovan_NaN
           ("0x08c379a00000000000000000000000000000000000000000000000000000000000000020"
            ++ "zz00000000000000000000000000000000000000000000000000000000000005"
            ++ "68656c6c6f")).
  vm_compute. reflexivity.
Defined.

(** ** findInABI and the calls that resolve through it *)

Lemma find_named_app (name : string) (pre post : list AbiItem.t) (item : AbiItem.t) :
  (forall x, In x pre -> ~ named name x) ->
  named name item ->
  findInABI name (pre ++ item :: post) = Ok item.
Proof.
  intros Hpre Hitem. unfold findInABI.
  induction pre as [|x pre IH]; cbn [app find].
  - unfold named in Hitem. rewrite Hitem, String.eqb_refl. reflexivity.
  - assert (Hx : match AbiItem.name x with
                 | Some n => (n =? name)%string
                 | None => false
                 end = false).
    { destruct (AbiItem.name x) as [n|] eqn:E; [|reflexivity].
      apply String.eqb_neq. intros ->. apply (Hpre x); [now left | exact E]. }
    rewrite Hx. apply IH. intros y Hy. apply Hpre. now right.
Qed.

(** X10. [findInABI] answers the first entry that carries the name: later
    entries of the same name, the overloads of a function, are never
    reached, and entries without a name are passed over.  It fails with
    "No ABI found" exactly when no entry carries the name. *)
Theorem findInABI_first_match (name : string) (abi : list AbiItem.t) :
  (forall pre item post,
      abi = (pre ++ item :: post)%list ->
      (forall x, In x pre -> ~ named name x) ->
      named name item ->
      findInABI name abi = Ok item)
  /\ (findInABI name abi = Throw (Thrown "No ABI found")
      <-> forall item, In item abi -> ~ named name item).
Proof.
  split.
  - intros pre item post -> Hpre Hitem. now apply find_named_app.
  - split.
    + intros Hthrow item Hin Hnamed.
      destruct (in_split _ _ Hin) as [l1 [l2 ->]].
      clear Hin. revert Hthrow.
      induction l1 as [|x l1 IH]; unfold findInABI; cbn [app find]; intros Hthrow.
      * unfold named in Hnamed. rewrite Hnamed, String.eqb_refl in Hthrow.
        discriminate.
      * destruct (match AbiItem.name x with
                  | Some n => (n =? name)%string
                  | None => false
                  end); [discriminate|].
        apply IH. exact Hthrow.
    + intros Hnone. apply findInABI_Throw. exact Hnone.
Qed.

Lemma findInABI_overloaded :
  findInABI "set" overloaded
  = Ok {| AbiItem.name := Some "set"; AbiItem.type := "function";
          AbiItem.inputs := Some [{| param_name := "value"; param_type := "uint256" |}];
          AbiItem.outputs := Some [] |}.
Proof.
  apply (proj1 (findInABI_first_match "set" overloaded)
           [ {| AbiItem.name := None; AbiItem.type := "constructor";
                AbiItem.inputs := Some []; AbiItem.outputs := None |} ]
           _
           [ {| AbiItem.name := Some "set"; AbiItem.type := "function";
                AbiItem.inputs := Some [{| param_name := "value"; param_type := "string" |}];
                AbiItem.outputs := Some [] |} ]).
  - reflexivity.
  - intros x [<-|[]]. discriminate.
  - reflexivity.
Defined.

Section CallEdges.

Variable web3Instance : Web3.
Variable method : ContractMethod.t.

Local Abbreviation address := (ContractMethod.address method).
Local Abbreviation absent :=
  (forall item, In item (ContractMethod.abi method) ->
                ~ named (ContractMethod.name method) item).

(** X11. [call] never changes the pending transactions, and it makes at
    most one request: none when the encoding fails, whose error it raises,
    and otherwise the one [eth.call] at the address of the method, whose
    rejection it raises. *)
Theorem call_one_request (args : list any) (st : State) :
  pendingTransactions (snd (Web3Service.call web3Instance method args st))
  = pendingTransactions st
  /\ (forall e,
         Web3Service.encodeMethod web3Instance method args = Throw e ->
         Web3Service.call web3Instance method args st = (Raise e, st))
  /\ (forall data,
         Web3Service.encodeMethod web3Instance method args = Ok data ->
         events_since st (snd (Web3Service.call web3Instance method args st))
         = [EthCall address data (eth_call web3Instance (tick st) address data)]
         /\ forall e,
             eth_call web3Instance (tick st) address data = Throw e ->
             fst (Web3Service.call web3Instance method args st) = Raise e).
Proof.
  unfold Web3Service.call.
  destruct (Web3Service.encodeMethod web3Instance method args) as [data|e0].
  - run. destruct (eth_call web3Instance (tick st) address data) as [result|e1] eqn:Hc.
    + assert (Hlog : forall (o : outcome (option (list (string * any)))) d,
                 Ok data = Ok d ->
                 events_since st (snd (o, record (EthCall address data (Ok result)) st))
                 = [EthCall address d (eth_call web3Instance (tick st) address d)]
                 /\ forall e, eth_call web3Instance (tick st) address d = Throw e ->
                              fst (o, record (EthCall address data (Ok result)) st) = Raise e).
      { intros o d Hd. injection Hd as <-. cbn [snd]. rewrite events_since_1, Hc.
        split; [reflexivity | discriminate]. }
      destruct (result =? "0x")%string.
      * split; [reflexivity|]. split; [discriminate | apply Hlog].
      * destruct (Web3Service.decodeOutput web3Instance method result);
          (split; [reflexivity|]); (split; [discriminate | apply Hlog]).
    + split; [reflexivity|]. split; [discriminate|].
      intros d Hd. injection Hd as <-. cbn [snd fst]. rewrite events_since_1, Hc.
      split; [reflexivity|]. intros e He. now injection He as <-.
  - run. split; [reflexivity|]. split.
    + intros e He. now injection He as <-.
    + discriminate.
Qed.

(** X12. A method whose name is not in its ABI fails with "No ABI found"
    at different times: called with arguments, before any request; called
    without arguments, only after the node has answered, when the answer
    is decoded, and not at all when the answer is "0x". *)
Theorem call_absent_method (args : list any) (st : State) (data result : string) :
  absent ->
  (args <> [] ->
   Web3Service.call web3Instance method args st = (Raise (Thrown "No ABI found"), st))
  /\ (args = [] ->
      encodeFunctionSignature web3Instance (ContractMethod.signature method) = Ok data ->
      eth_call web3Instance (tick st) address data = Ok result ->
      Web3Service.call web3Instance method args st
      = (if (result =? "0x")%string then Return None else Raise (Thrown "No ABI found"),
         record (EthCall address data (Ok result)) st)).
Proof.
  intros Habsent. pose proof (findInABI_Throw _ _ Habsent) as Hfind.
  unfold Web3Service.call, Web3Service.encodeMethod, Web3Service.decodeOutput.
  split.
  - intros Hargs. destruct args as [|a l]; [now elim Hargs|].
    cbn [List.length Nat.eqb]. rewrite Hfind. reflexivity.
  - intros -> Hsig Hcall. cbn [List.length Nat.eqb]. rewrite Hsig. run.
    rewrite Hcall. destruct (result =? "0x")%string; [reflexivity|].
    rewrite Hfind. reflexivity.
Qed.

(** X13. [transaction] never registers a hash among the pending
    transactions, and submits nothing before the gas is estimated: when
    the encoding fails it makes no request; when the estimate fails it
    raises that error after the estimate as its only request; otherwise
    its requests are the estimate and the submission with the estimated
    gas. *)
Theorem transaction_estimates_first (fuel : nat) (from : string)
  (args : list any) (st : State) :
  pendingTransactions (snd (Web3Service.transaction web3Instance fuel from method args st))
  = pendingTransactions st
  /\ (forall e,
         Web3Service.encodeMethod web3Instance method args = Throw e ->
         Web3Service.transaction web3Instance fuel from method args st = (Raise e, st))
  /\ (forall data e,
         Web3Service.encodeMethod web3Instance method args = Ok data ->
         eth_estimateGas web3Instance (tick st)
           {| from := from; to := address; data := data; gas := None |} = Throw e ->
         Web3Service.transaction web3Instance fuel from method args st
         = (Raise e,
            record (EstimateGas
                      {| from := from; to := address; data := data; gas := None |}
                      (Throw e)) st))
  /\ (forall data estimate,
         Web3Service.encodeMethod web3Instance method args = Ok data ->
         eth_estimateGas web3Instance (tick st)
           {| from := from; to := address; data := data; gas := None |} = Ok estimate ->
         let tx := {| from := from; to := address; data := data; gas := Some estimate |} in
         events_since st
           (snd (Web3Service.transaction web3Instance fuel from method args st))
         = [EstimateGas {| from := from; to := address; data := data; gas := None |}
              (Ok estimate);
            SendTransaction tx (eth_sendTransaction web3Instance (S (tick st)) tx)]).
Proof.
  unfold Web3Service.transaction. split; [|split; [|split]].
  - destruct (Web3Service.encodeMethod web3Instance method args) as [data|e];
      [|reflexivity].
    run. destruct (eth_estimateGas web3Instance (tick st) _) as [estimate|e];
      [|reflexivity].
    rewrite steps_spin by reflexivity. reflexivity.
  - intros e ->. reflexivity.
  - intros data e -> Hgas. run. rewrite Hgas. reflexivity.
  - intros data estimate -> Hgas. cbv zeta. run. rewrite Hgas.
    rewrite steps_spin by reflexivity. cbn [Web3Service.settled snd].
    rewrite tick_record. apply events_since_2.
Qed.

End CallEdges.

(** ** getRevertReason *)

Lemma lower_idempotent (c : ascii) : JS.lower (JS.lower c) = JS.lower c.
Proof. destruct c as [[] [] [] [] [] [] [] []]; reflexivity. Qed.

Lemma toLowerCase_idempotent (s : string) :
  JS.toLowerCase (JS.toLowerCase s) = JS.toLowerCase s.
Proof.
  induction s as [|c s IH]; [reflexivity|].
  cbn [JS.toLowerCase]. now rewrite lower_idempotent, IH.
Qed.

Lemma validateInputPreProvider_malformed (txHash network : string) :
  ~ isTxHash txHash ->
  Web3Service.validateInputPreProvider txHash network
  = Throw (Error "Invalid transaction hash").
Proof.
  intros Hno. unfold Web3Service.validateInputPreProvider.
  destruct (JS.test Web3Service.txHashRegex txHash) eqn:Htest.
  - elim Hno. now apply test_txHashRegex.
  - reflexivity.
Qed.

Section RevertReason.

Variable getDefaultProvider : string -> Provider.
Variable StringToNumber : string -> JS.number.
Variable txHash : string.
Variable network : option string.
Variable blockNumber : option string.

Local Abbreviation getRevertReason :=
  (Web3Service.getRevertReason getDefaultProvider StringToNumber).

(** The network and the block tag after [normalizeInput]. *)
Local Abbreviation net :=
  (JS.toLowerCase (match network with Some n => n | None => "mainnet" end)).
Local Abbreviation blk :=
  (match blockNumber with
   | Some EmptyString | None => "latest"
   | Some b => b
   end).
Local Abbreviation provider := (getDefaultProvider net).

(** X14. A malformed hash or an unsupported network is refused before any
    provider is asked: [getRevertReason] raises the error of the hash, or,
    the hash being well formed, that of the network, and makes no
    request. *)
Theorem getRevertReason_refuses_first (st : State) :
  (~ isTxHash txHash ->
   getRevertReason txHash network blockNumber st
   = (Raise (Error "Invalid transaction hash"), st))
  /\ (isTxHash txHash -> ~ In net supported ->
      getRevertReason txHash network blockNumber st
      = (Raise (Error "Not a valid network"), st)).
Proof.
  unfold Web3Service.getRevertReason, Web3Service.normalizeInput. split.
  - intros Hno. rewrite (validateInputPreProvider_malformed _ _ Hno). reflexivity.
  - intros Hhash Hnet. rewrite (validateInputPreProvider_well_formed _ _ Hhash).
    destruct (Web3Service.includes _ net) eqn:E.
    + apply includes_In in E. contradiction.
    + reflexivity.
Qed.

(** Once both validations have passed, what is left of [getRevertReason]. *)
Lemma getRevertReason_validated (st st1 : State) :
  Web3Service.validateInputPreProvider txHash net = Ok tt ->
  Web3Service.validateInputPostProvider StringToNumber txHash net (Tag blk) provider st
  = (Return tt, st1) ->
  getRevertReason txHash network blockNumber st
  = try_catch
      (bind (request (fun t => getTransaction provider t txHash) (GetTransaction txHash))
         (fun tx =>
            bind (Web3Service.getCode tx net (Tag blk) provider)
              (fun code => lift (Web3Service.decodeMessage code net))))
      (fun _ => raise unableToDecode) st1.
Proof.
  intros Hpre Hpost.
  unfold Web3Service.getRevertReason, Web3Service.normalizeInput.
  rewrite Hpre. unfold bind at 1. cbn [lift ret].
  unfold bind at 1. unfold Web3Service.getProvider. rewrite Hpost. reflexivity.
Qed.

(** X15. Once the hash, the network and the block number have passed the
    validations, [getRevertReason] either returns a text or raises "Unable
    to decode revert reason.": every failure of the fetch, of the replay
    and of the decoding is reported as that one error. *)
Theorem getRevertReason_wraps_failures (st : State) :
  Web3Service.validateInputPreProvider txHash net = Ok tt ->
  fst (Web3Service.validateInputPostProvider StringToNumber txHash net (Tag blk) provider st)
  = Return tt ->
  (exists text, fst (getRevertReason txHash network blockNumber st) = Return text)
  \/ fst (getRevertReason txHash network blockNumber st) = Raise unableToDecode.
Proof.
  intros Hpre Hpost.
  destruct (Web3Service.validateInputPostProvider _ _ _ _ _ st) as [o st1] eqn:E.
  cbn [fst] in Hpost. subst o.
  rewrite (getRevertReason_validated st st1 Hpre E).
  unfold try_catch.
  destruct (bind _ _ st1) as [[text|e|] st2] eqn:Hrun.
  - left. now exists text.
  - right. reflexivity.
  - exfalso. revert Hrun. unfold Web3Service.getCode. run.
    destruct (getTransaction provider (tick st1) txHash) as [tx|e]; [|discriminate].
    destruct (net =? "kovan")%string.
    + destruct (provider_call provider _ tx (Tag blk)) as [code|e].
      * destruct (Web3Service.decodeMessage code net); discriminate.
      * destruct (Web3Service.parsedError e _) as [code|e'].
        -- destruct (Web3Service.decodeMessage code net); discriminate.
        -- discriminate.
    + destruct (provider_call provider _ tx (Tag blk)) as [code|e]; [|discriminate].
      destruct (Web3Service.decodeMessage code net); discriminate.
Qed.

(** On a network other than kovan at "latest": the transaction is fetched
    and replayed at "latest", and the answer of the replay is decoded. *)
Lemma getRevertReason_latest (st : State) (tx : option Transaction)
  (code : string) (text : list Z) :
  isTxHash txHash ->
  In net ["mainnet"; "goerli"; "ropsten"; "rinkeby"] ->
  blk = "latest" ->
  getTransaction provider (tick st) txHash = Ok tx ->
  provider_call provider (S (tick st)) tx (Tag "latest") = Ok code ->
  Web3Service.decodeMessage code net = Ok text ->
  getRevertReason txHash network blockNumber st
  = (Return text,
     record (Call tx (Tag "latest") (Ok code)) (record (GetTransaction txHash (Ok tx)) st)).
Proof.
  intros Hhash Hnet Hblk Htx Hcall Hdecode.
  assert (Hpre : Web3Service.validateInputPreProvider txHash net = Ok tt).
  { rewrite (validateInputPreProvider_well_formed _ _ Hhash).
    replace (Web3Service.includes _ net) with true; [reflexivity|].
    symmetry. apply includes_In. simpl in Hnet |- *. tauto. }
  assert (Hkovan : (net =? "kovan")%string = false).
  { apply String.eqb_neq. intros E. rewrite E in Hnet. simpl in Hnet.
    destruct Hnet as [H|[H|[H|[H|[]]]]]; discriminate H. }
  assert (Hpost : Web3Service.validateInputPostProvider StringToNumber txHash net
                    (Tag blk) provider st = (Return tt, st)).
  { unfold Web3Service.validateInputPostProvider. rewrite Hkovan, Hblk. reflexivity. }
  rewrite (getRevertReason_validated st st Hpre Hpost).
  unfold Web3Service.getCode. rewrite Hkovan, Hblk. run.
  rewrite Htx. rewrite tick_record, Hcall, Hdecode. reflexivity.
Qed.

(** X16. On a supported network other than kovan and at "latest", a
    well-formed hash whose replay answers the payload of an ASCII text is
    resolved to that text, without its trailing NUL characters if it has
    any, in two requests: the fetch of the transaction and its replay at
    "latest". *)
Theorem getRevertReason_resolves (st : State) (tx : option Transaction)
  (message : string) :
  isTxHash txHash ->
  In net ["mainnet"; "goerli"; "ropsten"; "rinkeby"] ->
  blk = "latest" ->
  getTransaction provider (tick st) txHash = Ok tx ->
  provider_call provider (S (tick st)) tx (Tag "latest") = Ok (Payload.encode message) ->
  isAscii message ->
  getRevertReason txHash network blockNumber st
  = (Return (trimZeros (utf16 message)),
     record (Call tx (Tag "latest") (Ok (Payload.encode message)))
       (record (GetTransaction txHash (Ok tx)) st)).
Proof.
  intros Hhash Hnet Hblk Htx Hcall Hascii.
  apply getRevertReason_latest; try assumption.
  apply (decode_stripped_hex _ _ _
           (2 * ((32 - List.length (Payload.utf8 message) mod 32) mod 32))).
  - intros E. rewrite E in Hnet. simpl in Hnet.
    destruct Hnet as [H|[H|[H|[H|[]]]]]; discriminate H.
  - rewrite substr_encode. unfold Payload.rightPad.
    now rewrite hex_app, hex_repeat_0.
  - now apply utf8_ascii.
Qed.

End RevertReason.

(** X17. [getRevertReason] reads the network without regard to case, and
    an absent or empty block number as "latest". *)
Theorem getRevertReason_normalizes (getDefaultProvider : string -> Provider)
  (StringToNumber : string -> JS.number) (txHash network : string)
  (blockNumber : option string) (st : State) :
  Web3Service.getRevertReason getDefaultProvider StringToNumber txHash
    (Some network) blockNumber st
  = Web3Service.getRevertReason getDefaultProvider StringToNumber txHash
      (Some (JS.toLowerCase network)) blockNumber st
  /\ Web3Service.getRevertReason getDefaultProvider StringToNumber txHash
       (Some network) None st
     = Web3Service.getRevertReason getDefaultProvider StringToNumber txHash
         (Some network) (Some "latest") st
  /\ Web3Service.getRevertReason getDefaultProvider StringToNumber txHash
       (Some network) (Some "") st
     = Web3Service.getRevertReason getDefaultProvider StringToNumber txHash
         (Some network) (Some "latest") st.
Proof.
  split; [|split; reflexivity].
  unfold Web3Service.getRevertReason, Web3Service.normalizeInput.
  now rewrite toLowerCase_idempotent.
Qed.

(** ** validateInputPostProvider at its edges *)

Section PostProviderEdges.

Variable StringToNumber : string -> JS.number.
Variables (txHash network : string) (blockNumber : blockTag) (provider : Provider).

Local Abbreviation validate :=
  (Web3Service.validateInputPostProvider StringToNumber txHash network blockNumber provider).

(** X18. On a network other than kovan the validation passes without a
    request for "latest"; and with the query of the height as its only
    request for a block number within the last 128 blocks, and for one
    that is not a number, which compares false with every height. *)
Theorem validateInputPostProvider_passes (st : State) :
  network <> "kovan" ->
  (Web3Service.is_latest blockNumber = true -> validate st = (Return tt, st))
  /\ (forall cur,
         Web3Service.is_latest blockNumber = false ->
         getBlockNumber provider (tick st) = Ok cur ->
         Web3Service.Number StringToNumber blockNumber = JS.NaN
         \/ (exists n, Web3Service.Number StringToNumber blockNumber = JS.Int n
                       /\ cur - 128 <= n < cur) ->
         validate st = (Return tt, record (GetBlockNumber (Ok cur)) st)).
Proof.
  intros Hnet. apply String.eqb_neq in Hnet.
  unfold Web3Service.validateInputPostProvider. rewrite Hnet. split.
  - intros ->. reflexivity.
  - intros cur -> Hcur Hnum. run. rewrite Hcur.
    destruct Hnum as [-> | [n [-> Hn]]]; [reflexivity|].
    cbn [JS.ge JS.lt JS.sub].
    replace (n >=? cur) with false by (symmetry; rewrite Z.geb_leb; apply Z.leb_gt; lia).
    replace (n <? cur - 128) with false by (symmetry; apply Z.ltb_ge; lia).
    reflexivity.
Qed.

(** X19. For a block more than 128 blocks behind the height, on a network
    other than kovan, the balance of the zero address at that block is
    queried after the height.  An answer passes the validation, and so
    does a rejection with any error code other than -32002 or with none;
    a rejection whose body is not JSON, or has no error member, raises
    the error of the parsing itself. *)
Theorem validateInputPostProvider_canary (st : State) (n cur : Z) :
  network <> "kovan" ->
  Web3Service.is_latest blockNumber = false ->
  Web3Service.Number StringToNumber blockNumber = JS.Int n ->
  getBlockNumber provider (tick st) = Ok cur ->
  n < cur - 128 ->
  let answer := getBalance provider (S (tick st)) Web3Service.AddressZero (JS.Int n) in
  events_since st (snd (validate st))
  = [GetBlockNumber (Ok cur); GetBalance Web3Service.AddressZero (JS.Int n) answer]
  /\ (forall balance, answer = Ok balance -> fst (validate st) = Return tt)
  /\ (forall code data,
         answer = Throw (Rejected (RpcError code data)) ->
         code <> Some (-32002) ->
         fst (validate st) = Return tt)
  /\ (answer = Throw (Rejected NotJSON) -> fst (validate st) = Raise SyntaxError)
  /\ (answer = Throw (Rejected NoErrorMember) -> fst (validate st) = Raise TypeError).
Proof.
  intros Hnet Hlatest Hnum Hcur Hold answer.
  apply String.eqb_neq in Hnet.
  assert (Hrun : validate st
    = match answer with
      | Ok _ => (Return tt, record (GetBalance Web3Service.AddressZero (JS.Int n) answer)
                              (record (GetBlockNumber (Ok cur)) st))
      | Throw e =>
          (match Web3Service.parsedError e (fun code _ => Ok code) with
           | Ok (Some c) =>
               if c =? Web3Service.infuraErrCode then Raise archiveRequired else Return tt
           | Ok None => Return tt
           | Throw e' => Raise e'
           end,
           record (GetBalance Web3Service.AddressZero (JS.Int n) answer)
             (record (GetBlockNumber (Ok cur)) st))
      end).
  { unfold Web3Service.validateInputPostProvider.
    rewrite Hnet, Hlatest, Hnum. run. rewrite Hcur. cbn [JS.ge JS.lt JS.sub].
    replace (n >=? cur) with false by (symmetry; rewrite Z.geb_leb; apply Z.leb_gt; lia).
    replace (n <? cur - 128) with true by (symmetry; apply Z.ltb_lt; lia).
    rewrite tick_record. fold answer.
    destruct answer as [b|e]; [reflexivity|].
    destruct (Web3Service.parsedError e _) as [[c|]|e']; try reflexivity.
    destruct (c =? Web3Service.infuraErrCode); reflexivity. }
  rewrite Hrun. split; [|split; [|split; [|split]]].
  - destruct answer; cbn [snd]; apply events_since_2.
  - intros balance ->. reflexivity.
  - intros code data -> Hcode. cbn.
    destruct code as [c|]; [|reflexivity].
    destruct (Z.eqb_spec c Web3Service.infuraErrCode) as [->|]; [|reflexivity].
    now elim Hcode.
  - intros ->. reflexivity.
  - intros ->. reflexivity.
Qed.

(** X20. On kovan at "latest" the validation is decided by the fetch of
    the transaction alone: if the fetch fails, the error is that of a
    provider without the trace methods, whatever the failure was; if it
    answers, the trial replay is started and the validation passes
    whatever the replay answers, even a rejection. *)
Theorem validateInputPostProvider_kovan_probe (st : State) :
  network = "kovan" ->
  Web3Service.is_latest blockNumber = true ->
  (forall e, getTransaction provider (tick st) txHash = Throw e ->
             validate st
             = (Raise unsupportedProvider, record (GetTransaction txHash (Throw e)) st))
  /\ (forall tx, getTransaction provider (tick st) txHash = Ok tx ->
                 validate st
                 = (Return tt,
                    record (Call tx blockNumber
                              (provider_call provider (S (tick st)) tx blockNumber))
                      (record (GetTransaction txHash (Ok tx)) st))).
Proof.
  intros -> Hlatest.
  unfold Web3Service.validateInputPostProvider, Web3Service.getCode.
  rewrite Hlatest. cbn [String.eqb Ascii.eqb Bool.eqb andb negb]. run. split.
  - intros e ->. reflexivity.
  - intros tx ->. rewrite tick_record.
    destruct (provider_call provider (S (tick st)) tx blockNumber) as [code|e];
      [reflexivity|].
    cbn [fst snd].
    destruct (Web3Service.parsedError e _); reflexivity.
Qed.

End PostProviderEdges.

(** ** The revert reason on kovan *)

Lemma substr_prefix (prefix s : string) :
  JS.substr (prefix ++ s) (JS.Int (Z.of_nat (String.length prefix))) = s.
Proof.
  unfold JS.substr, JS.relative, JS.len. cbn [JS.ToInteger].
  rewrite length_append.
  destruct (Z.ltb_spec (Z.of_nat (String.length prefix)) 0); [lia|].
  rewrite Z.min_l by lia. rewrite Nat2Z.id. apply drop_app.
Qed.

(** X21. On kovan a well-formed hash is resolved in four requests: the
    transaction is fetched and replayed once for the validation, whose
    answer is dropped, then fetched and replayed again.  When the node
    rejects the second replay with the payload in the data of its error,
    after a prefix of nine characters, the text is read from the payload
    through its length field. *)
Theorem getRevertReason_kovan_resolves (getDefaultProvider : string -> Provider)
  (StringToNumber : string -> JS.number) (txHash : string) (st : State)
  (tx0 tx : option Transaction) (code : option Z) (prefix pre rest : string)
  (bytes : list Z) :
  isTxHash txHash ->
  getTransaction (getDefaultProvider "kovan") (tick st) txHash = Ok tx0 ->
  getTransaction (getDefaultProvider "kovan") (S (S (tick st))) txHash = Ok tx ->
  provider_call (getDefaultProvider "kovan") (S (S (S (tick st)))) tx (Tag "latest")
  = Throw (Rejected (RpcError code
             (Some (prefix ++ pre
                    ++ Payload.hex (Payload.word (Z.of_nat (List.length bytes)))
                    ++ Payload.hex bytes ++ rest)%string))) ->
  String.length prefix = 9%nat ->
  String.length pre = 74%nat ->
  Z.of_nat (List.length bytes) < 256 ^ 32 ->
  Forall (fun b => 0 <= b < 128) bytes ->
  let run := Web3Service.getRevertReason getDefaultProvider StringToNumber txHash
               (Some "kovan") None st in
  fst run = Return bytes
  /\ map is_replay (events_since st (snd run)) = [false; true; false; true].
Proof.
  intros Hhash Htx0 Htx Hcall Hprefix Hpre Hlen Hascii.
  set (provider := getDefaultProvider "kovan") in *.
  set (data := (prefix ++ pre ++ _)%string) in Hcall.
  set (answer0 := provider_call provider (S (tick st)) tx0 (Tag "latest")).
  set (st1 := record (Call tx0 (Tag "latest") answer0)
                (record (GetTransaction txHash (Ok tx0)) st)).
  assert (Hpreok : Web3Service.validateInputPreProvider txHash (JS.toLowerCase "kovan")
                   = Ok tt).
  { rewrite (validateInputPreProvider_well_formed _ _ Hhash). reflexivity. }
  assert (Hpost : Web3Service.validateInputPostProvider StringToNumber txHash
                    (JS.toLowerCase "kovan") (Tag "latest")
                    (getDefaultProvider (JS.toLowerCase "kovan")) st
                  = (Return tt, st1)).
  { change (JS.toLowerCase "kovan") with "kovan". fold provider.
    unfold Web3Service.validateInputPostProvider, Web3Service.getCode.
    cbn [String.eqb Ascii.eqb Bool.eqb andb negb Web3Service.is_latest]. run.
    rewrite Htx0. rewrite tick_record. fold answer0.
    destruct answer0 as [c|e]; [reflexivity|]. cbn [fst snd].
    destruct (Web3Service.parsedError e _); reflexivity. }
  assert (Htick : tick st1 = S (S (tick st))).
  { unfold st1. now rewrite !tick_record. }
  assert (Hdecode : Web3Service.decodeMessage (JS.substr data (JS.Int 9)) "kovan"
                    = Ok bytes).
  { replace (JS.Int 9) with (JS.Int (Z.of_nat (String.length prefix)))
      by (now rewrite Hprefix).
    unfold data. rewrite substr_prefix.
    now apply (decode_kovan_span _ pre rest bytes). }
  intros run. unfold run.
  rewrite (getRevertReason_validated getDefaultProvider StringToNumber txHash
             (Some "kovan") None st st1 Hpreok Hpost).
  change (JS.toLowerCase "kovan") with "kovan". fold provider.
  unfold Web3Service.getCode.
  cbn [String.eqb Ascii.eqb Bool.eqb andb]. run.
  rewrite Htick, Htx. rewrite tick_record, Htick, Hcall.
  cbn [Web3Service.parsedError Web3Service.responseText lift fst snd].
  rewrite Hdecode. cbn [fst snd]. split; [reflexivity|].
  unfold st1. rewrite events_since_4. reflexivity.
Qed.

(** ** getReceipt: the hash stays pending unless a receipt is returned *)

Section ReceiptEdges.

Variable web3Instance : Web3.
Variable getDefaultProvider : string -> Provider.
Variable StringToNumber : string -> JS.number.

Local Abbreviation getReceipt :=
  (Web3Service.getReceipt web3Instance getDefaultProvider StringToNumber).

Lemma getReceipt_keeps (fuel : nat) (txId : string) :
  forall st o st',
    getReceipt fuel txId st = (o, st') ->
    (forall r, o <> Return r) ->
    pendingTransactions st' = pendingTransactions st.
Proof.
  induction fuel as [|fuel IH]; intros st o st'; cbn [Web3Service.getReceipt].
  - intros H _. now injection H as _ <-.
  - unfold bind at 1. unfold request.
    destruct (eth_getTransactionReceipt web3Instance (tick st) txId) as [[rc|]|e];
      cbn [lift ret raise].
    + unfold bind at 1.
      destruct (Receipt.status rc); cbn [negb].
      * cbn. intros H Hno. injection H as <- _. now elim (Hno _ eq_refl).
      * unfold bind at 1.
        pose proof (frames_getRevertReason getDefaultProvider StringToNumber
                      (Receipt.transactionHash rc) (Some "ropsten") None
                      (record (GetTransactionReceipt txId (Ok (Some rc))) st)) as Hframe.
        destruct (Web3Service.getRevertReason _ _ _ _ _ _) as [[reason|e|] st1];
          cbn [snd] in Hframe; cbn.
        -- intros H Hno. injection H as <- _. now elim (Hno _ eq_refl).
        -- intros H _. injection H as _ <-. exact Hframe.
        -- intros H _. injection H as _ <-. exact Hframe.
    + intros H Hno. rewrite (IH _ _ _ H Hno). reflexivity.
    + intros H _. now injection H as _ <-.
Qed.

(** X22. Whenever [getReceipt] does not return a receipt, because a poll
    is rejected, because the revert reason cannot be resolved or because
    the receipt has not arrived yet, the pending transactions are left as
    they were: the hash is removed only together with a returned
    receipt. *)
Theorem getReceipt_keeps_pending (fuel : nat) (txId : string) (st : State) :
  (forall r, fst (getReceipt fuel txId st) <> Return r) ->
  pendingTransactions (snd (getReceipt fuel txId st)) = pendingTransactions st.
Proof.
  destruct (getReceipt fuel txId st) as [o st'] eqn:E. cbn [fst snd].
  now apply (getReceipt_keeps fuel txId st o st').
Qed.

(** X23. When the receipt arrives at the poll number [k] with a failure
    status and a well-formed hash, the reason is resolved on ropsten at
    "latest": if the replay there answers the payload of an ASCII text,
    [getReceipt] returns the receipt with that text as its revert reason,
    whatever the block of the receipt and the network of the caller. *)
Theorem getReceipt_attaches_reason (txId : string) (rc : Receipt.base) (k : nat)
  (tx : option Transaction) (message : string) :
  forall st extra,
    (forall i, (i < k)%nat ->
               eth_getTransactionReceipt web3Instance (tick st + i) txId = Ok None) ->
    eth_getTransactionReceipt web3Instance (tick st + k) txId = Ok (Some rc) ->
    Receipt.status rc = false ->
    isTxHash (Receipt.transactionHash rc) ->
    getTransaction (getDefaultProvider "ropsten") (tick st + k + 1)
      (Receipt.transactionHash rc) = Ok tx ->
    provider_call (getDefaultProvider "ropsten") (tick st + k + 2) tx (Tag "latest")
    = Ok (Payload.encode message) ->
    isAscii message ->
    fst (getReceipt (S k + extra) txId st)
    = Return {| Receipt.receipt := rc;
                Receipt.revertReason := Some (trimZeros (utf16 message)) |}.
Proof.
  induction k as [|k IH]; intros st extra Hnone Hsome Hstatus Hhash Htx Hcall Hascii.
  - rewrite Nat.add_0_r in Hsome, Htx, Hcall.
    cbn [Web3Service.getReceipt Nat.add]. unfold bind at 1. unfold request.
    rewrite Hsome. cbn [lift ret]. unfold bind at 1. rewrite Hstatus. cbn [negb].
    unfold bind at 1.
    set (st1 := record (GetTransactionReceipt txId (Ok (Some rc))) st).
    assert (Hdecode : Web3Service.decodeMessage (Payload.encode message) "ropsten"
                      = Ok (trimZeros (utf16 message))).
    { apply (decode_stripped_hex _ _ _
               (2 * ((32 - List.length (Payload.utf8 message) mod 32) mod 32))).
      - discriminate.
      - rewrite substr_encode. unfold Payload.rightPad.
        now rewrite hex_app, hex_repeat_0.
      - now apply utf8_ascii. }
    rewrite (getRevertReason_latest getDefaultProvider StringToNumber
               (Receipt.transactionHash rc) (Some "ropsten") None st1 tx
               (Payload.encode message) (trimZeros (utf16 message))).
    + reflexivity.
    + exact Hhash.
    + simpl. tauto.
    + reflexivity.
    + unfold st1. rewrite tick_record.
      change (JS.toLowerCase "ropsten") with "ropsten".
      replace (S (tick st)) with (tick st + 1)%nat by lia. exact Htx.
    + unfold st1. rewrite tick_record.
      change (JS.toLowerCase "ropsten") with "ropsten".
      replace (S (S (tick st))) with (tick st + 2)%nat by lia. exact Hcall.
    + exact Hdecode.
  - cbn [Web3Service.getReceipt Nat.add]. unfold bind at 1 3. unfold request.
    pose proof (Hnone 0%nat ltac:(lia)) as H0.
    rewrite Nat.add_0_r in H0. rewrite H0.
    cbn [lift ret].
    set (st1 := record (GetTransactionReceipt txId (Ok None)) st).
    assert (Ht : tick st1 = S (tick st)) by apply tick_record.
    apply (IH st1 extra); try assumption.
    + intros i Hi. rewrite Ht.
      replace (S (tick st) + i)%nat with (tick st + S i)%nat by lia.
      apply Hnone. lia.
    + rewrite Ht.
      replace (S (tick st) + k)%nat with (tick st + S k)%nat by lia.
      exact Hsome.
    + rewrite Ht.
      replace (S (tick st) + k + 1)%nat with (tick st + S k + 1)%nat by lia.
      exact Htx.
    + rewrite Ht.
      replace (S (tick st) + k + 2)%nat with (tick st + S k + 2)%nat by lia.
      exact Hcall.
Qed.

End ReceiptEdges.

(** ** getReceipt resolves on ropsten *)

Lemma getRevertReason_ropsten (getDefaultProvider getDefaultProvider' : string -> Provider)
  (StringToNumber StringToNumber' : string -> JS.number) (txHash : string) (st : State) :
  getDefaultProvider "ropsten" = getDefaultProvider' "ropsten" ->
  Web3Service.getRevertReason getDefaultProvider StringToNumber txHash
    (Some "ropsten") None st
  = Web3Service.getRevertReason getDefaultProvider' StringToNumber' txHash
      (Some "ropsten") None st.
Proof.
  intros Hsame.
  unfold Web3Service.getRevertReason, Web3Service.normalizeInput,
    Web3Service.getProvider.
  change (JS.toLowerCase "ropsten") with "ropsten".
  rewrite Hsame. reflexivity.
Qed.

(** X24. [getReceipt] resolves the revert reason on ropsten at "latest",
    whatever network the transaction was sent to: its outcome and its
    requests depend on the provider of no other network, and on no
    reading of a block number. *)
Theorem getReceipt_asks_ropsten (web3Instance : Web3)
  (getDefaultProvider getDefaultProvider' : string -> Provider)
  (StringToNumber StringToNumber' : string -> JS.number)
  (fuel : nat) (txId : string) (st : State) :
  getDefaultProvider "ropsten" = getDefaultProvider' "ropsten" ->
  Web3Service.getReceipt web3Instance getDefaultProvider StringToNumber fuel txId st
  = Web3Service.getReceipt web3Instance getDefaultProvider' StringToNumber' fuel txId st.
Proof.
  intros Hsame. revert st.
  induction fuel as [|fuel IH]; intros st; cbn [Web3Service.getReceipt];
    [reflexivity|].
  unfold bind at 1 5. unfold request.
  destruct (eth_getTransactionReceipt web3Instance (tick st) txId) as [[rc|]|e];
    cbn [lift ret raise].
  - unfold bind at 1 4.
    destruct (Receipt.status rc); cbn [negb]; [reflexivity|].
    unfold bind at 1 4.
    rewrite (getRevertReason_ropsten getDefaultProvider getDefaultProvider'
               StringToNumber StringToNumber' _ _ Hsame).
    reflexivity.
  - apply IH.
  - reflexivity.
Qed.

(** * Scenarios *)

(** ** Hashes *)

Lemma isTxHash_aHash : isTxHash aHash.
Proof. apply test_txHashRegex. vm_compute. reflexivity. Qed.

(** A well-formed hash is accepted on mainnet; a hash that is too short,
    one without its prefix and one with a character outside the hex digits
    are rejected. *)
Lemma validateInputPreProvider_scenarios :
  Web3Service.validateInputPreProvider aHash "mainnet" = Ok tt
  /\ Web3Service.validateInputPreProvider "0x4f2a" "mainnet"
     = Throw (Error "Invalid transaction hash")
  /\ Web3Service.validateInputPreProvider
       "4f2a1c0de9b83577a6d1e0c3b5f49218aa07c6e35d9014f2b8c7e6a1d3f5092b00" "mainnet"
     = Throw (Error "Invalid transaction hash")
  /\ Web3Service.validateInputPreProvider
       "0x4f2a1c0de9b83577a6d1e0c3b5f49218aa07c6e35d9014f2b8c7e6a1d3f5092g" "mainnet"
     = Throw (Error "Invalid transaction hash").
Proof.
  split.
  - exact (proj1 (validateInputPreProvider_txHash aHash "mainnet") isTxHash_aHash).
  - repeat split; vm_compute; reflexivity.
Defined.

Lemma validateInputPreProvider_network_scenarios :
  Web3Service.validateInputPreProvider aHash "goerli" = Ok tt
  /\ Web3Service.validateInputPreProvider aHash "sepolia"
     = Throw (Error "Not a valid network").
Proof.
  split.
  - apply (proj1 (validateInputPreProvider_network aHash "goerli" isTxHash_aHash)).
    simpl. auto.
  - apply (proj2 (validateInputPreProvider_network aHash "sepolia" isTxHash_aHash)).
    simpl. intros [H|[H|[H|[H|[H|[]]]]]]; discriminate H.
Defined.

(** ** Block numbers *)

(** C3 as stated fails on kovan: with the requested block at the current
    height the validation does fail with the error of a block that has not
    happened, but a replay was attempted before. *)
Lemma validateInputPostProvider_kovan_replays_first :
  fst (Web3Service.validateInputPostProvider decimal aHash "kovan" (Tag "1000")
         (pruningNode 1000 "0x") idle)
  = Raise futureBlock
  /\ events_since idle
       (snd (Web3Service.validateInputPostProvider decimal aHash "kovan" (Tag "1000")
               (pruningNode 1000 "0x") idle))
     = [GetTransaction aHash (Ok (Some aTransaction));
        Call (Some aTransaction) (Tag "1000") (Ok "0x");
        GetBlockNumber (Ok 1000)]
  /\ existsb is_replay
       (events_since idle
          (snd (Web3Service.validateInputPostProvider decimal aHash "kovan" (Tag "1000")
                  (pruningNode 1000 "0x") idle)))
     = true.
Proof. repeat split; vm_compute; reflexivity. Qed.

(** On kovan the probe may also fail first: the validation then ends with
    the error of the missing trace methods, whatever the block number. *)
Example validateInputPostProvider_kovan_probe_fails :
  Web3Service.validateInputPostProvider decimal aHash "kovan" (Tag "1000")
    (foreignNode 1000) idle
  = (Raise unsupportedProvider,
     record (GetTransaction aHash (Throw (Rejected NotJSON))) idle).
Proof. vm_compute. reflexivity. Qed.

(** On mainnet at height 1000: the block 1000 is refused after the query of
    the height alone, the block 999 passes the check. *)
Lemma validateInputPostProvider_future_block_mainnet :
  (Web3Service.validateInputPostProvider decimal aHash "mainnet" (Tag "1000")
     (pruningNode 1000 "0x") idle
   = (Raise futureBlock, record (GetBlockNumber (Ok 1000)) idle)
   /\ existsb is_replay
        (events_since idle
           (snd (Web3Service.validateInputPostProvider decimal aHash "mainnet" (Tag "1000")
                   (pruningNode 1000 "0x") idle)))
      = false)
  /\ fst (Web3Service.validateInputPostProvider decimal aHash "mainnet" (Tag "999")
            (pruningNode 1000 "0x") idle)
     <> Raise futureBlock.
Proof.
  split.
  - apply (validateInputPostProvider_future_block decimal aHash "mainnet" (Tag "1000")
             (pruningNode 1000 "0x") idle 1000 1000);
      try reflexivity; try discriminate; lia.
  - apply (validateInputPostProvider_future_block decimal aHash "mainnet" (Tag "999")
             (pruningNode 1000 "0x") idle 999 1000);
      try reflexivity; try discriminate; lia.
Defined.

(** The revert resolution on "Ropsten" for the block 1000 at height 1000. *)
Lemma getRevertReason_future_block_ropsten :
  Web3Service.getRevertReason (fun _ => pruningNode 1000 "0x") decimal aHash
    (Some "Ropsten") (Some "1000") idle
  = (Raise futureBlock, record (GetBlockNumber (Ok 1000)) idle).
Proof.
  apply (getRevertReason_future_block (fun _ => pruningNode 1000 "0x") decimal aHash
           "Ropsten" "1000" idle 1000 1000).
  - exact isTxHash_aHash.
  - simpl. auto.
  - discriminate.
  - discriminate.
  - reflexivity.
  - reflexivity.
  - lia.
Defined.

(** The scenario of the specification: on kovan at height 1000, the block
    950 is inside the window and the block 800 is not; for the block 800
    the pruning node is asked the balance, and rejects with -32002. *)
Lemma validateInputPostProvider_archive_kovan :
  fst (Web3Service.validateInputPostProvider decimal aHash "kovan" (Tag "950")
         (pruningNode 1000 "0x") idle)
  <> Raise archiveRequired
  /\ skipn 2
       (events_since idle
          (snd (Web3Service.validateInputPostProvider decimal aHash "kovan" (Tag "800")
                  (pruningNode 1000 "0x") idle)))
     = [GetBlockNumber (Ok 1000);
        GetBalance Web3Service.AddressZero (JS.Int 800)
          (Throw (Rejected (RpcError (Some (-32002)) None)))]
  /\ fst (Web3Service.validateInputPostProvider decimal aHash "kovan" (Tag "800")
            (pruningNode 1000 "0x") idle)
     = Raise archiveRequired.
Proof.
  split.
  - apply (proj1 (validateInputPostProvider_archive decimal aHash "kovan" (Tag "950")
                    (pruningNode 1000 "0x") idle 950 1000 eq_refl eq_refl eq_refl)).
    lia.
  - destruct (proj2 (validateInputPostProvider_archive decimal aHash "kovan" (Tag "800")
                       (pruningNode 1000 "0x") idle 800 1000 eq_refl eq_refl eq_refl)
                ltac:(lia) (fun _ => ex_intro _ (Some aTransaction) eq_refl))
      as [Hevents Hout].
    split; [exact Hevents|].
    apply (proj2 Hout). exists None. reflexivity.
Defined.

(** ** Calls *)



(** Without arguments [testNumber] is encoded from its signature; with an
    argument, from its entry. *)
Lemma encodeMethod_scenarios :
  Web3Service.encodeMethod (aWeb3 "0x" false []) testNumber [] = Ok "0xtestNumber(uint256)"
  /\ Web3Service.encodeMethod (aWeb3 "0x" false []) testNumber [Num 7] = Ok "0xtestNumber".
Proof.
  split.
  - exact (proj1 (encodeMethod_selector_or_full (aWeb3 "0x" false []) testNumber []) eq_refl).
  - refine (proj2 (proj2 (proj1 (proj2 (encodeMethod_selector_or_full
                                          (aWeb3 "0x" false []) testNumber [Num 7]) _)
                            _ eq_refl))).
    discriminate.
Defined.

(** ** Receipts *)

Lemma getReceipt_reverted :
  fst revertedRun
  = Return {| Receipt.receipt :=
                {| Receipt.status := false; Receipt.transactionHash := aHash;
                   Receipt.blockNumber := 900 |};
              Receipt.revertReason := Some (utf16 "Insufficient balance") |}
  /\ pendingTransactions (snd revertedRun) = ["0x01"; "0x02"; "0x01"]
  /\ ~ In aHash (pendingTransactions (snd revertedRun))
  /\ forall hash, hash <> aHash ->
       count_occ string_dec (pendingTransactions (snd revertedRun)) hash
       = count_occ string_dec (pendingTransactions busy) hash.
Proof.
  split; [vm_compute; reflexivity|].
  apply (getReceipt_removes_pending (aWeb3 "0x" false [])
           (fun _ => pruningNode 1000 (Payload.encode "Insufficient balance"))
           decimal 3 aHash busy (snd revertedRun)
           {| Receipt.receipt :=
                {| Receipt.status := false; Receipt.transactionHash := aHash;
                   Receipt.blockNumber := 900 |};
              Receipt.revertReason := Some (utf16 "Insufficient balance") |}).
  vm_compute. reflexivity.
Defined.

(** A mined transaction: the receipt arrives at the third poll with a
    success status, and [getReceipt] returns it. *)
Lemma getReceipt_mined :
  exists st',
    Web3Service.getReceipt (aWeb3 "0x" true []) (fun _ => pruningNode 1000 "0x")
      decimal (3 + 0) aHash busy
    = (Return {| Receipt.receipt :=
                   {| Receipt.status := true; Receipt.transactionHash := aHash;
                      Receipt.blockNumber := 900 |};
                 Receipt.revertReason := None |}, st').
Proof.
  apply (getReceipt_returns (aWeb3 "0x" true []) (fun _ => pruningNode 1000 "0x")
           decimal aHash
           {| Receipt.status := true; Receipt.transactionHash := aHash;
              Receipt.blockNumber := 900 |} 2 busy 0).
  - intros i Hi. destruct i as [|[|i]]; [reflexivity | reflexivity | lia].
  - reflexivity.
  - reflexivity.
Defined.

(** ** Submissions *)

(** The stream reports that the node refused the transaction; after a
    thousand rounds of the loop the promise of [transaction] is still
    pending, and the hash is not among the pending transactions. *)
Lemma transaction_refused_stays_pending :
  Web3Service.transaction
    (aWeb3 "0x" false [error (Error "insufficient funds for gas * price + value")])
    1000 "0x00000000000000000000000000000000000000a1" testNumber [Num 7] idle
  = (Pending,
     record (SendTransaction
               {| from := "0x00000000000000000000000000000000000000a1"; to := aContract;
                  data := "0xtestNumber"; gas := Some 21000 |}
               [error (Error "insufficient funds for gas * price + value")])
       (record (EstimateGas
                  {| from := "0x00000000000000000000000000000000000000a1"; to := aContract;
                     data := "0xtestNumber"; gas := None |}
                  (Ok 21000))
          idle)).
Proof. vm_compute. reflexivity. Qed.

(** ** Further scenarios *)

Lemma call_absent_method_getTotal :
  (([Num 1] : list any) <> [] ->
   Web3Service.call (aWeb3 "0x" true []) getTotal [Num 1] idle
   = (Raise (Thrown "No ABI found"), idle))
  /\ (([Num 1] : list any) = [] ->
      encodeFunctionSignature (aWeb3 "0x" true []) (ContractMethod.signature getTotal)
      = Ok "0xgetTotal()" ->
      eth_call (aWeb3 "0x" true []) (tick idle) (ContractMethod.address getTotal)
        "0xgetTotal()" = Ok "0x" ->
      Web3Service.call (aWeb3 "0x" true []) getTotal [Num 1] idle
      = (if ("0x" =? "0x")%string then Return None else Raise (Thrown "No ABI found"),
         record (EthCall (ContractMethod.address getTotal) "0xgetTotal()" (Ok "0x")) idle)).
Proof.
  apply (call_absent_method (aWeb3 "0x" true []) getTotal [Num 1] idle
           "0xgetTotal()" "0x").
  intros item Hin. simpl in Hin.
  destruct Hin as [<-|[<-|[]]]; discriminate.
Defined.

Lemma getRevertReason_wraps_failures_foreign :
  (exists text,
      fst (Web3Service.getRevertReason (fun _ => foreignNode 1000) decimal aHash
             (Some "mainnet") None idle) = Return text)
  \/ fst (Web3Service.getRevertReason (fun _ => foreignNode 1000) decimal aHash
            (Some "mainnet") None idle) = Raise unableToDecode.
Proof.
  apply (getRevertReason_wraps_failures (fun _ => foreignNode 1000) decimal aHash
           (Some "mainnet") None idle).
  - vm_compute. reflexivity.
  - vm_compute. reflexivity.
Defined.

Lemma getRevertReason_resolves_mainnet :
  Web3Service.getRevertReason
    (fun _ => pruningNode 1000 (Payload.encode "Insufficient balance")) decimal aHash
    (Some "Mainnet") None idle
  = (Return (trimZeros (utf16 "Insufficient balance")),
     record (Call (Some aTransaction) (Tag "latest")
               (Ok (Payload.encode "Insufficient balance")))
       (record (GetTransaction aHash (Ok (Some aTransaction))) idle)).
Proof.
  apply (getRevertReason_resolves
           (fun _ => pruningNode 1000 (Payload.encode "Insufficient balance"))
           decimal aHash (Some "Mainnet") None idle (Some aTransaction)
           "Insufficient balance").
  - exact isTxHash_aHash.
  - vm_compute. tauto.
  - reflexivity.
  - reflexivity.
  - reflexivity.
  - unfold isAscii. vm_compute. repeat constructor.
Defined.

Lemma validateInputPostProvider_passes_recent :
  (Web3Service.is_latest (Tag "950") = true ->
   Web3Service.validateInputPostProvider decimal aHash "mainnet" (Tag "950")
     (pruningNode 1000 "0x") idle = (Return tt, idle))
  /\ (forall cur,
         Web3Service.is_latest (Tag "950") = false ->
         getBlockNumber (pruningNode 1000 "0x") (tick idle) = Ok cur ->
         Web3Service.Number decimal (Tag "950") = JS.NaN
         \/ (exists n, Web3Service.Number decimal (Tag "950") = JS.Int n
                       /\ cur - 128 <= n < cur) ->
         Web3Service.validateInputPostProvider decimal aHash "mainnet" (Tag "950")
           (pruningNode 1000 "0x") idle
         = (Return tt, record (GetBlockNumber (Ok cur)) idle)).
Proof.
  apply (validateInputPostProvider_passes decimal aHash "mainnet" (Tag "950")
           (pruningNode 1000 "0x") idle).
  discriminate.
Defined.

Lemma validateInputPostProvider_canary_archive :
  let answer := getBalance (foreignNode 1000) (S (tick idle)) Web3Service.AddressZero
                  (JS.Int 100) in
  let validate := Web3Service.validateInputPostProvider decimal aHash "mainnet"
                    (Tag "100") (foreignNode 1000) in
  events_since idle (snd (validate idle))
  = [GetBlockNumber (Ok 1000); GetBalance Web3Service.AddressZero (JS.Int 100) answer]
  /\ (forall balance, answer = Ok balance -> fst (validate idle) = Return tt)
  /\ (forall code data,
         answer = Throw (Rejected (RpcError code data)) ->
         code <> Some (-32002) ->
         fst (validate idle) = Return tt)
  /\ (answer = Throw (Rejected NotJSON) -> fst (validate idle) = Raise SyntaxError)
  /\ (answer = Throw (Rejected NoErrorMember) -> fst (validate idle) = Raise TypeError).
Proof.
  apply (validateInputPostProvider_canary decimal aHash "mainnet" (Tag "100")
           (foreignNode 1000) idle 100 1000).
  - discriminate.
  - reflexivity.
  - reflexivity.
  - reflexivity.
  - lia.
Defined.

Lemma validateInputPostProvider_kovan_probe_scenario :
  (forall e, getTransaction (parityNode 1000 "") (tick idle) aHash = Throw e ->
             Web3Service.validateInputPostProvider decimal aHash "kovan" (Tag "latest")
               (parityNode 1000 "") idle
             = (Raise unsupportedProvider, record (GetTransaction aHash (Throw e)) idle))
  /\ (forall tx, getTransaction (parityNode 1000 "") (tick idle) aHash = Ok tx ->
                 Web3Service.validateInputPostProvider decimal aHash "kovan" (Tag "latest")
                   (parityNode 1000 "") idle
                 = (Return tt,
                    record (Call tx (Tag "latest")
                              (provider_call (parityNode 1000 "") (S (tick idle)) tx
                                 (Tag "latest")))
                      (record (GetTransaction aHash (Ok tx)) idle))).
Proof.
  apply (validateInputPostProvider_kovan_probe decimal aHash "kovan" (Tag "latest")
           (parityNode 1000 "") idle); reflexivity.
Defined.

Lemma getRevertReason_kovan_resolves_parity :
  let data :=
    ("Reverted "
     ++ "0x08c379a00000000000000000000000000000000000000000000000000000000000000020"
     ++ Payload.hex (Payload.word (Z.of_nat (List.length (utf16 "Insufficient balance"))))
     ++ Payload.hex (utf16 "Insufficient balance")
     ++ "000000000000000000000000")%string in
  let run := Web3Service.getRevertReason (fun _ => parityNode 1000 data) decimal aHash
               (Some "kovan") None idle in
  fst run = Return (utf16 "Insufficient balance")
  /\ map is_replay (events_since idle (snd run)) = [false; true; false; true].
Proof.
  intros data.
  apply (getRevertReason_kovan_resolves (fun _ => parityNode 1000 data) decimal aHash idle
           (Some aTransaction) (Some aTransaction) (Some (-32015)) "Reverted "
           "0x08c379a00000000000000000000000000000000000000000000000000000000000000020"
           "000000000000000000000000" (utf16 "Insufficient balance")).
  - exact isTxHash_aHash.
  - reflexivity.
  - reflexivity.
  - reflexivity.
  - reflexivity.
  - reflexivity.
  - vm_compute. reflexivity.
  - vm_compute. repeat constructor; discriminate.
Defined.

Lemma getReceipt_keeps_pending_unresolved :
  pendingTransactions
    (snd (Web3Service.getReceipt (aWeb3 "0x" false []) (fun _ => foreignNode 1000)
            decimal 3 aHash busy))
  = pendingTransactions busy.
Proof.
  apply (getReceipt_keeps_pending (aWeb3 "0x" false []) (fun _ => foreignNode 1000)
           decimal 3 aHash busy).
  intros r. vm_compute. discriminate.
Defined.

Lemma getReceipt_attaches_reason_ropsten :
  fst (Web3Service.getReceipt (aWeb3 "0x" false [])
         (ropstenOnly (Payload.encode "Insufficient balance")) decimal (3 + 0) aHash busy)
  = Return {| Receipt.receipt :=
                {| Receipt.status := false; Receipt.transactionHash := aHash;
                   Receipt.blockNumber := 900 |};
              Receipt.revertReason := Some (trimZeros (utf16 "Insufficient balance")) |}.
Proof.
  apply (getReceipt_attaches_reason (aWeb3 "0x" false [])
           (ropstenOnly (Payload.encode "Insufficient balance")) decimal aHash
           {| Receipt.status := false; Receipt.transactionHash := aHash;
              Receipt.blockNumber := 900 |}
           2 (Some aTransaction) "Insufficient balance" busy 0).
  - intros i Hi. destruct i as [|[|i]]; [reflexivity | reflexivity | lia].
  - reflexivity.
  - reflexivity.
  - exact isTxHash_aHash.
  - reflexivity.
  - reflexivity.
  - unfold isAscii. vm_compute. repeat constructor.
Defined.

Lemma getReceipt_asks_ropsten_scenario :
  Web3Service.getReceipt (aWeb3 "0x" false [])
    (fun _ => pruningNode 1000 (Payload.encode "Insufficient balance")) decimal 3 aHash busy
  = Web3Service.getReceipt (aWeb3 "0x" false [])
      (ropstenOnly (Payload.encode "Insufficient balance")) (fun _ => JS.NaN) 3 aHash busy.
Proof.
  apply (getReceipt_asks_ropsten (aWeb3 "0x" false [])
           (fun _ => pruningNode 1000 (Payload.encode "Insufficient balance"))
           (ropstenOnly (Payload.encode "Insufficient balance"))
           decimal (fun _ => JS.NaN) 3 aHash busy).
  reflexivity.
Defined.
